(** * The tool-use loop of examples/claude-api-integration.py

    A shallow embedding of the script: the two external services (the chat
    completion API behind [client.messages.create] and the MCP bridge behind
    [requests.post]) are oracles that see the history of calls made so far;
    the script itself is a computation in a small monad that threads the
    module-level [conversation_id] and a log of every external call, and that
    can raise a Python exception. *)

From Stdlib Require Import ZArith List String Bool Lia.
Import ListNotations.
Open Scope string_scope.
Open Scope Z_scope.
Set Warnings "-register-all".

(** ** Python values *)

(** The values that cross the JSON boundary (the bridge's response body, the
    tool input chosen by the chat service, the request body).  A [dict] keeps
    its keys in insertion order, as Python's does; numbers are integers. *)
Inductive pyval : Type :=
| PNone
| PBool (b : bool)
| PInt (z : Z)
| PStr (s : string)
| PList (l : list pyval)
| PDict (d : list (string * pyval)).

Definition dict := list (string * pyval).

(** [bool(v)], the test behind [if v:] and [not v]. *)
Definition truthy (v : pyval) : bool :=
  match v with
  | PNone => false
  | PBool b => b
  | PInt z => negb (z =? 0)
  | PStr s => negb (s =? "")%string
  | PList l => match l with [] => false | _ => true end
  | PDict d => match d with [] => false | _ => true end
  end.

(** Lookup of a key in a dict. *)
Fixpoint dict_lookup (d : dict) (k : string) : option pyval :=
  match d with
  | [] => None
  | (k', v) :: d' => if (k' =? k)%string then Some v else dict_lookup d' k
  end.

(** [d.get(k, default)]. *)
Definition dict_get (d : dict) (k : string) (default : pyval) : pyval :=
  match dict_lookup d k with
  | Some v => v
  | None => default
  end.

(** ** Exceptions *)

Inductive exn : Type :=
| ValueError (msg : string)
| StopIteration
| KeyError (key : string)
| TypeError
| AttributeError
| JSONDecodeError
| HTTPError (status : Z)
| ExternalError (what : string).   (* raised inside requests.post or the SDK *)

Inductive result (A : Type) : Type :=
| Ok (a : A)
| Err (e : exn).
Arguments Ok {A} a.
Arguments Err {A} e.

(** ** The chat service's data *)

(** A content block of a chat response.  A text block has a [text] attribute
    and type "text"; a tool-use block has type "tool_use", an [id], a [name]
    and an [input] dict, and no [text] attribute. *)
Inductive block : Type :=
| TextBlock (text : string)
| ToolUseBlock (id : string) (name : string) (input : dict).

Record chat_response : Type := {
  stop_reason : string;
  content : list block
}.

(** The content of a transcript entry, in the three shapes the script
    builds. *)
Inductive turn_content : Type :=
| ContentText (s : string)
| ContentBlocks (bs : list block)
| ContentToolResult (tool_use_id : string) (result_content : pyval).

Record turn : Type := {
  role : string;
  turn_body : turn_content
}.

Record tool : Type := {
  tool_name : string;
  tool_description : string;
  input_schema : pyval
}.

Record chat_request : Type := {
  api_key : string;
  model : string;
  max_tokens : Z;
  req_tools : list tool;
  req_messages : list turn
}.

(** ** The bridge's data *)

(** What [requests.post] returns: the status code, and the body as
    [response.json()] decodes it ([None] when the body is not JSON). *)
Record http_response : Type := {
  status_code : Z;
  json_body : option pyval
}.

(** The dict returned by [call_david_gpt], one field per key. *)
Record bridge_result : Type := {
  r_conversation_id : pyval;
  r_response : pyval;
  r_citations : pyval
}.

(** ** State, log and services *)

Inductive event : Type :=
| ChatCall (req : chat_request) (res : result chat_response)
| BridgePost (url : string) (body : pyval) (res : result http_response).

(** The module-level [conversation_id], and the external calls made so far
    (oldest first).  The log records the message list as it is when the call
    is made: the script later appends to the same list object. *)
Record state : Type := {
  conversation_id : pyval;
  log : list event
}.

(** The outside world: each service answers a call knowing the calls that
    came before it. *)
Record services : Type := {
  messages_create : list event -> chat_request -> result chat_response;
  requests_post : list event -> string -> pyval -> result http_response
}.

(** ** The monad *)

Inductive outcome (A : Type) : Type :=
| Returned (a : A) (s : state)
| Raised (e : exn) (s : state)
| OutOfFuel (s : state).
Arguments Returned {A} a s.
Arguments Raised {A} e s.
Arguments OutOfFuel {A} s.

Definition M (A : Type) : Type := state -> outcome A.

Definition ret {A} (a : A) : M A := fun s => Returned a s.

Definition bind {A B} (m : M A) (k : A -> M B) : M B :=
  fun s =>
    match m s with
    | Returned a s' => k a s'
    | Raised e s' => Raised e s'
    | OutOfFuel s' => OutOfFuel s'
    end.

Definition raise {A} (e : exn) : M A := fun s => Raised e s.

Definition out_of_fuel {A} : M A := fun s => OutOfFuel s.

Definition lift {A} (r : result A) : M A :=
  match r with
  | Ok a => ret a
  | Err e => raise e
  end.

Notation "x <- m ;; k" := (bind m (fun x => k))
  (at level 61, m at next level, right associativity).
Notation "m ;;; k" := (bind m (fun _ => k))
  (at level 61, right associativity).

Definition final_state {A} (o : outcome A) : state :=
  match o with
  | Returned _ s => s
  | Raised _ s => s
  | OutOfFuel s => s
  end.

Definition get_conversation_id : M pyval :=
  fun s => Returned (conversation_id s) s.

Definition set_conversation_id (v : pyval) : M unit :=
  fun s => Returned tt {| conversation_id := v; log := log s |}.

(** ** Built-ins and library calls the script relies on *)

(** [response.raise_for_status()] of the requests library: HTTPError for a
    client error (4xx) or a server error (5xx) status, nothing otherwise. *)
Definition is_error_status (r : http_response) : bool :=
  (400 <=? status_code r) && (status_code r <? 600).

Definition raise_for_status (r : http_response) : M unit :=
  if is_error_status r
  then raise (HTTPError (status_code r))
  else ret tt.

(** [response.json()]. *)
Definition response_json (r : http_response) : M pyval :=
  match json_body r with
  | Some v => ret v
  | None => raise JSONDecodeError
  end.

(** [data.get]: only a dict has the method. *)
Definition as_dict (v : pyval) : M dict :=
  match v with
  | PDict d => ret d
  | _ => raise AttributeError
  end.

(** [d[k]] on a dict. *)
Definition subscript (d : dict) (k : string) : M pyval :=
  match dict_lookup d k with
  | Some v => ret v
  | None => raise (KeyError k)
  end.

(** [v[:200]], evaluated for the preview that is printed: defined on strings
    and lists, an error on the other values (TypeError; on a dict, Python
    3.12 and later raise KeyError instead). *)
Definition slice_preview (v : pyval) : M unit :=
  match v with
  | PStr _ | PList _ => ret tt
  | _ => raise TypeError
  end.

(** [len(v)], evaluated for the citation count that is printed. *)
Definition py_len (v : pyval) : M Z :=
  match v with
  | PStr s => ret (Z.of_nat (String.length s))
  | PList l => ret (Z.of_nat (List.length l))
  | PDict d => ret (Z.of_nat (List.length d))
  | _ => raise TypeError
  end.

(** [next(block for block in content if block.type == "tool_use")]. *)
Fixpoint first_tool_use (bs : list block) : option (string * string * dict) :=
  match bs with
  | [] => None
  | ToolUseBlock id name input :: _ => Some (id, name, input)
  | TextBlock _ :: bs' => first_tool_use bs'
  end.

(** [next((block.text for block in content if hasattr(block, "text")), None)]. *)
Fixpoint first_text (bs : list block) : option string :=
  match bs with
  | [] => None
  | TextBlock t :: _ => Some t
  | ToolUseBlock _ _ _ :: bs' => first_text bs'
  end.

(** ** The script *)

(** [tools], the one tool declared to the chat service. *)
Definition tools : list tool :=
  [ {| tool_name := "ask_david_gpt";
       tool_description := "Ask David's RAG knowledge base about 3D displays, Leia technology, computer vision, AI, and related technical topics.

        The system returns cited responses from technical documents, patents, and research papers.
        Use this when the user asks about:
        - Leia technology and 3D displays
        - Diffractive Lightfield Backlighting (DLB)
        - 3D Cell / Liquid Crystal lens technology
        - Glasses-free 3D displays
        - Computer vision and AI topics
        - Patents and technical innovations";
       input_schema :=
         PDict [ ("type", PStr "object");
                 ("properties",
                  PDict [ ("message",
                           PDict [ ("type", PStr "string");
                                   ("description",
                                    PStr "Question or query for the RAG system") ]) ]);
                 ("required", PList [PStr "message"]) ] |} ].

(** The JSON body [call_david_gpt] posts: the branch is taken on the
    truthiness of its [conversation_id] argument. *)
Definition request_body (message cid : pyval) : pyval :=
  if truthy cid
  then PDict [ ("action", PStr "reply_to_conversation");
               ("conversation_id", cid);
               ("message", message) ]
  else PDict [ ("action", PStr "new_conversation");
               ("message", message);
               ("persona", PStr "david") ].

Definition assistant_turn (r : chat_response) : turn :=
  {| role := "assistant"; turn_body := ContentBlocks (content r) |}.

Definition tool_result_turn (id : string) (text : pyval) : turn :=
  {| role := "user"; turn_body := ContentToolResult id text |}.

(** The keyword arguments of both [client.messages.create] calls; the client
    carries the key. *)
Definition create_request (key : string) (messages : list turn) : chat_request :=
  {| api_key := key;
     model := "claude-3-5-sonnet-20241022";
     max_tokens := 2048;
     req_tools := tools;
     req_messages := messages |}.

Section Script.

(** The two services, and the module-level configuration read from the
    process environment when the module is loaded. *)
Variable world : services.
Variable MCP_BRIDGE_URL : string.
Variable ANTHROPIC_API_KEY : string.

(** [requests.post(url, json=body)]: one call of the bridge, logged. *)
Definition post (url : string) (body : pyval) : M http_response :=
  fun s =>
    let res := requests_post world (log s) url body in
    lift res {| conversation_id := conversation_id s;
                log := (log s ++ [BridgePost url body res])%list |}.

(** [client.messages.create(model=..., max_tokens=2048, tools=tools,
    messages=messages)]: one call of the chat service, logged. *)
Definition create (messages : list turn) : M chat_response :=
  fun s =>
    let req := create_request ANTHROPIC_API_KEY messages in
    let res := messages_create world (log s) req in
    lift res {| conversation_id := conversation_id s;
                log := (log s ++ [ChatCall req res])%list |}.

(** [call_david_gpt(message, conversation_id)]; the second argument is the
    function's parameter, not the module-level variable. *)
Definition call_david_gpt (message cid : pyval) : M bridge_result :=
  response <- post MCP_BRIDGE_URL (request_body message cid) ;;
  raise_for_status response ;;;
  data <- response_json response ;;
  d <- as_dict data ;;
  ret {| r_conversation_id := dict_get d "conversation_id" PNone;
         r_response := dict_get d "response" PNone;
         r_citations := dict_get d "citations" (PList []) |}.

(** The body of the [while] loop of [chat_with_claude], up to and
    including the next call of the chat service.  The three [print]s only
    matter through the expressions they evaluate, which can raise. *)
Definition tool_use_round (messages : list turn) (response : chat_response)
  : M (list turn * chat_response) :=
  tool_use <- match first_tool_use (content response) with
              | Some tu => ret tu
              | None => raise StopIteration
              end ;;
  let '(id, name, input) := tool_use in
  subscript input "message" ;;;
  message <- subscript input "message" ;;
  cid <- get_conversation_id ;;
  result <- call_david_gpt message cid ;;
  (if truthy (r_conversation_id result)
   then set_conversation_id (r_conversation_id result)
   else ret tt) ;;;
  slice_preview (r_response result) ;;;
  py_len (r_citations result) ;;;
  let messages' :=
    (messages ++ [assistant_turn response;
                  tool_result_turn id (r_response result)])%list in
  response' <- create messages' ;;
  ret (messages', response').

(** The [while response.stop_reason == "tool_use"] loop followed by the
    extraction of the final text.  Fuel bounds the number of rounds; a
    terminal response needs none. *)
Fixpoint process_tool_calls (fuel : nat) (messages : list turn)
  (response : chat_response) : M (option string) :=
  if (stop_reason response =? "tool_use")%string
  then match fuel with
       | O => out_of_fuel
       | S fuel' =>
           next <- tool_use_round messages response ;;
           process_tool_calls fuel' (fst next) (snd next)
       end
  else ret (first_text (content response)).

Definition chat_with_claude (fuel : nat) (user_message : string)
  : M (option string) :=
  let messages := [ {| role := "user"; turn_body := ContentText user_message |} ] in
  response <- create messages ;;
  process_tool_calls fuel messages response.

(** The [if __name__ == "__main__"] block. *)
Definition main (fuel : nat) : M unit :=
  chat_with_claude fuel "What is Leia technology and how does it work?" ;;;
  chat_with_claude fuel "What are the advantages of the 3D Cell approach over the older DLB technology?" ;;;
  chat_with_claude fuel "Can you summarize the key innovations in simple terms?" ;;;
  ret tt.

End Script.

(** ** Module load *)

(** [os.getenv(name)] and [os.getenv(name, default)] over the process
    environment. *)
Definition getenv (environ : string -> option string) (name : string)
  : option string :=
  environ name.

Definition getenv_default (environ : string -> option string)
  (name default : string) : string :=
  match environ name with
  | Some v => v
  | None => default
  end.

(** The state when the module body starts to run. *)
Definition boot : state := {| conversation_id := PNone; log := [] |}.

(** The whole script run as a program: the module-level statements (read the
    configuration, refuse to go on without a key, build the client, set
    [conversation_id = None]) and then [main]. *)
Definition program (environ : string -> option string) (world : services)
  (fuel : nat) : outcome unit :=
  let MCP_BRIDGE_URL :=
    getenv_default environ "MCP_BRIDGE_URL" "http://localhost:3000/api/mcp-bridge" in
  let ANTHROPIC_API_KEY := getenv environ "ANTHROPIC_API_KEY" in
  match ANTHROPIC_API_KEY with
  | None =>
      Raised (ValueError "Please set ANTHROPIC_API_KEY environment variable") boot
  | Some k =>
      if (k =? "")%string
      then Raised (ValueError "Please set ANTHROPIC_API_KEY environment variable") boot
      else main world MCP_BRIDGE_URL k fuel boot
  end.

(** ** Reading the log *)

(** The conversation identifier a bridge call hands back to the loop: the
    "conversation_id" entry of a decoded JSON object, when the call got that
    far. *)
Definition returned_identifier (res : result http_response) : option pyval :=
  match res with
  | Err _ => None
  | Ok r =>
      if is_error_status r then None
      else match json_body r with
           | Some (PDict d) => dict_lookup d "conversation_id"
           | _ => None
           end
  end.

(** The stored identifier after a bridge call that answered [res], when it
    was [cid] before: the returned one if there is one and it is truthy. *)
Definition next_id (cid : pyval) (res : result http_response) : pyval :=
  match returned_identifier res with
  | Some v => if truthy v then v else cid
  | None => cid
  end.

(** The stored identifier after the calls [evs], when it was [cid] before. *)
Fixpoint stored_after (cid : pyval) (evs : list event) : pyval :=
  match evs with
  | [] => cid
  | ChatCall _ _ :: evs' => stored_after cid evs'
  | BridgePost _ _ res :: evs' => stored_after (next_id cid res) evs'
  end.

(** Every bridge request of [evs] was built from the identifier stored when
    it was sent, starting from [cid]. *)
Fixpoint session_ok (cid : pyval) (evs : list event) : Prop :=
  match evs with
  | [] => True
  | ChatCall _ _ :: evs' => session_ok cid evs'
  | BridgePost _ body res :: evs' =>
      (exists m, body = request_body m cid) /\ session_ok (next_id cid res) evs'
  end.

(** A computation keeps the session when it only adds to the log, every
    bridge request it adds carries the identifier stored at that point, and
    the identifier it leaves is the one those calls determine. *)
Definition keeps_session {A : Type} (m : M A) : Prop :=
  forall s, exists evs,
    log (final_state (m s)) = (log s ++ evs)%list /\
    session_ok (conversation_id s) evs /\
    conversation_id (final_state (m s)) = stored_after (conversation_id s) evs.

Definition is_chat_call (e : event) : bool :=
  match e with ChatCall _ _ => true | BridgePost _ _ _ => false end.

(** The chat calls of a log, in order: each request with its answer. *)
Fixpoint chat_calls (evs : list event)
  : list (chat_request * result chat_response) :=
  match evs with
  | [] => []
  | ChatCall req res :: evs' => (req, res) :: chat_calls evs'
  | BridgePost _ _ _ :: evs' => chat_calls evs'
  end.

(** The rounds that follow a chat call sent with [prev] and answered by
    [prev_resp]: each is one bridge call and then one chat call whose message
    list is [prev] with the assistant's turn and the tool result added; the
    last round may stop after its bridge call. *)
Fixpoint rounds_ok (prev : list turn) (prev_resp : chat_response)
  (evs : list event) : Prop :=
  match evs with
  | [] => True
  | BridgePost _ _ res :: evs1 =>
      match evs1 with
      | [] => True
      | ChatCall req cres :: evs2 =>
          (exists id name input hr d,
              first_tool_use (content prev_resp) = Some (id, name, input) /\
              res = Ok hr /\ json_body hr = Some (PDict d) /\
              req_messages req =
                (prev ++ [assistant_turn prev_resp;
                          tool_result_turn id (dict_get d "response" PNone)])%list) /\
          match cres with
          | Ok r => rounds_ok (req_messages req) r evs2
          | Err _ => evs2 = []
          end
      | BridgePost _ _ _ :: _ => False
      end
  | ChatCall _ _ :: _ => False
  end.

(** An event the script can produce when it runs with bridge address [url]
    and key [key]: a chat call with the fixed keyword arguments, or a post to
    [url] of one of the two request bodies. *)
Definition made_by (url key : string) (e : event) : Prop :=
  match e with
  | ChatCall req _ => exists messages, req = create_request key messages
  | BridgePost u body _ => u = url /\ exists m cid, body = request_body m cid
  end.

(** A computation that only adds events satisfying [P] to the log. *)
Definition adds_only (P : event -> Prop) {A : Type} (m : M A) : Prop :=
  forall s, exists evs,
    log (final_state (m s)) = (log s ++ evs)%list /\ Forall P evs.

(** The exception a service answered a call with, if it did. *)
Definition event_error (e : event) : option exn :=
  match e with
  | ChatCall _ (Err x) => Some x
  | BridgePost _ _ (Err x) => Some x
  | _ => None
  end.


(** ** A scenario *)

Module Ping.

Definition ask : chat_response :=
  {| stop_reason := "tool_use";
     content := [ToolUseBlock "toolu_1" "ask_david_gpt" [("message", PStr "ping")]] |}.

Definition answer : chat_response :=
  {| stop_reason := "end_turn"; content := [TextBlock "pong received"] |}.

Definition pong : http_response :=
  {| status_code := 200;
     json_body := Some (PDict [ ("conversation_id", PStr "c1");
                                ("response", PStr "pong");
                                ("citations", PList []) ]) |}.

(** The chat service asks for the tool on the first call of an exchange and
    answers on the next; the bridge always answers [pong]. *)
Definition world : services :=
  {| messages_create := fun _ req =>
       match req_messages req with
       | [_] => Ok ask
       | _ => Ok answer
       end;
     requests_post := fun _ _ _ => Ok pong |}.

Definition url : string := "http://localhost:3000/api/mcp-bridge".

Definition run : outcome (option string) :=
  chat_with_claude world url "sk-test" 5 "ping" boot.

(** A process environment that only sets the key. *)
Definition environ : string -> option string :=
  fun name => if (name =? "ANTHROPIC_API_KEY")%string then Some "sk-test" else None.

(** The first chat call of an exchange in this world. *)
Definition first_call (user_message : string) : event :=
  ChatCall
    (create_request "sk-test"
       [ {| role := "user"; turn_body := ContentText user_message |} ])
    (Ok ask).

(** The log of the whole program in this world: three exchanges of one round
    each. *)
Definition program_log : list event :=
  log (final_state (program environ world 5)).

End Ping.

(** The bridge answers with status 300 and a JSON body. *)
Module Moved.

Definition reply : http_response :=
  {| status_code := 300;
     json_body := Some (PDict [ ("conversation_id", PStr "c2");
                                ("response", PStr "see other") ]) |}.

Definition world : services :=
  {| messages_create := messages_create Ping.world;
     requests_post := fun _ _ _ => Ok reply |}.

End Moved.

(** The bridge answers with an empty conversation identifier, and the chat
    service asks for the tool twice before it answers. *)
Module EmptyId.

Definition reply : http_response :=
  {| status_code := 200;
     json_body := Some (PDict [ ("conversation_id", PStr "");
                                ("response", PStr "pong");
                                ("citations", PList []) ]) |}.

Definition world : services :=
  {| messages_create := fun _ req =>
       match req_messages req with
       | [_] | [_; _; _] => Ok Ping.ask
       | _ => Ok Ping.answer
       end;
     requests_post := fun _ _ _ => Ok reply |}.

End EmptyId.

(** The bridge answers 503 with a body that is not JSON. *)
Module Down.

Definition reply : http_response :=
  {| status_code := 503; json_body := None |}.

Definition world : services :=
  {| messages_create := messages_create Ping.world;
     requests_post := fun _ _ _ => Ok reply |}.

End Down.

(** The chat service is unreachable. *)
Module Outage.

Definition world : services :=
  {| messages_create := fun _ _ => Err (ExternalError "overloaded");
     requests_post := requests_post Ping.world |}.

End Outage.

(** The bridge answers with an identifier and nothing else. *)
Module NoText.

Definition reply : http_response :=
  {| status_code := 200;
     json_body := Some (PDict [ ("conversation_id", PStr "c9") ]) |}.

Definition world : services :=
  {| messages_create := messages_create Ping.world;
     requests_post := fun _ _ _ => Ok reply |}.

End NoText.

(** ** Facts about one round of the loop *)

Section Facts.

Variable world : services.
Variable url key : string.

Lemma is_error_status_iff (r : http_response) :
  is_error_status r = true <-> 400 <= status_code r < 600.
Proof.
  unfold is_error_status. rewrite andb_true_iff, Z.leb_le, Z.ltb_lt. tauto.
Qed.

(** What [call_david_gpt] does: one post, and then either an exception with
    the state as the post left it (HTTPError when the status is an error
    status), or the three fields of the decoded dict. *)
Lemma call_david_gpt_cases (message cid : pyval) (s : state) :
  let body := request_body message cid in
  let res := requests_post world (log s) url body in
  let s1 := {| conversation_id := conversation_id s;
               log := (log s ++ [BridgePost url body res])%list |} in
  (exists e, call_david_gpt world url message cid s = Raised e s1 /\
             returned_identifier res = None /\
             (forall hr, res = Ok hr -> is_error_status hr = true ->
                         e = HTTPError (status_code hr)))
  \/
  (exists hr d, res = Ok hr /\ is_error_status hr = false /\
     json_body hr = Some (PDict d) /\
     returned_identifier res = dict_lookup d "conversation_id" /\
     call_david_gpt world url message cid s =
       Returned {| r_conversation_id := dict_get d "conversation_id" PNone;
                   r_response := dict_get d "response" PNone;
                   r_citations := dict_get d "citations" (PList []) |} s1).
Proof.
  cbv zeta. unfold call_david_gpt, bind, post.
  destruct (requests_post world (log s) url (request_body message cid))
    as [hr | e] eqn:Hpost; cbn [lift ret raise].
  2:{ left. exists e. repeat split. intros hr Hhr. discriminate Hhr. }
  unfold raise_for_status, returned_identifier.
  destruct (is_error_status hr) eqn:Hst; cbn [raise ret].
  { left. eexists. repeat split. intros hr' Hhr' _.
    injection Hhr' as <-. reflexivity. }
  assert (Hvac : forall (e : exn) hr', Ok hr = Ok hr' ->
                   is_error_status hr' = true -> e = HTTPError (status_code hr')).
  { intros e hr' Hhr' Herr. injection Hhr' as <-. congruence. }
  unfold response_json.
  destruct (json_body hr) as [v |] eqn:Hjs; cbn [raise ret].
  2:{ left. eexists. repeat split. apply Hvac. }
  destruct v; cbn [as_dict raise ret];
    try (left; eexists; repeat split; apply Hvac).
  right. exists hr, d. repeat split; solve [assumption | reflexivity].
Qed.

(** The stored identifier after the update that follows a successful call is
    the one [next_id] computes from the decoded dict. *)
Lemma update_is_next_id (cid : pyval) (d : dict) :
  (if truthy (dict_get d "conversation_id" PNone)
   then dict_get d "conversation_id" PNone else cid)
  = match dict_lookup d "conversation_id" with
    | Some v => if truthy v then v else cid
    | None => cid
    end.
Proof.
  unfold dict_get. destruct (dict_lookup d "conversation_id"); reflexivity.
Qed.

(** The ways one round of the loop can go: it raises before any call (no
    tool-use block, or no "message" key); it calls the bridge once and raises
    (inside [call_david_gpt] or while printing the preview); or it calls the
    bridge once and then the chat service once, with the two turns added. *)
Lemma tool_use_round_cases (messages : list turn) (response : chat_response)
  (s : state) :
  (first_tool_use (content response) = None /\
   tool_use_round world url key messages response s = Raised StopIteration s)
  \/
  (exists id name input,
      first_tool_use (content response) = Some (id, name, input) /\
      dict_lookup input "message" = None /\
      tool_use_round world url key messages response s
        = Raised (KeyError "message") s)
  \/
  (exists id name input m,
      first_tool_use (content response) = Some (id, name, input) /\
      dict_lookup input "message" = Some m /\
      let body := request_body m (conversation_id s) in
      let res := requests_post world (log s) url body in
      let s1 := {| conversation_id := next_id (conversation_id s) res;
                   log := (log s ++ [BridgePost url body res])%list |} in
      ((exists e, tool_use_round world url key messages response s = Raised e s1 /\
                  (forall hr, res = Ok hr -> is_error_status hr = true ->
                              e = HTTPError (status_code hr)))
       \/
       (exists hr d, res = Ok hr /\ is_error_status hr = false /\
          json_body hr = Some (PDict d) /\
          let messages' :=
            (messages ++ [assistant_turn response;
                          tool_result_turn id (dict_get d "response" PNone)])%list in
          let req := create_request key messages' in
          let cres := messages_create world (log s1) req in
          let s2 := {| conversation_id := conversation_id s1;
                       log := (log s1 ++ [ChatCall req cres])%list |} in
          tool_use_round world url key messages response s
            = match cres with
              | Ok r' => Returned (messages', r') s2
              | Err e => Raised e s2
              end))).
Proof.
  unfold tool_use_round, bind.
  destruct (first_tool_use (content response)) as [[[id name] input] |] eqn:Hf;
    cbn [ret raise].
  2:{ left. split; reflexivity. }
  right. unfold subscript.
  destruct (dict_lookup input "message") as [m |] eqn:Hm; cbn [ret raise].
  2:{ left. exists id, name, input. repeat split; solve [assumption | reflexivity]. }
  right. exists id, name, input, m. split; [reflexivity | split; [assumption |]].
  cbv zeta. cbn [get_conversation_id].
  destruct (call_david_gpt_cases m (conversation_id s) s)
    as [(e & He & Hid & Hhttp) | (hr & d & Hres & Hst & Hjs & Hid & Hc)];
    cbv zeta in *.
  { left. exists e. rewrite He. unfold next_id. rewrite Hid.
    split; [destruct s; reflexivity | exact Hhttp]. }
  rewrite Hc. cbn [r_conversation_id r_response r_citations].
  unfold next_id. rewrite Hid, <- update_is_next_id.
  set (body := request_body m (conversation_id s)) in *.
  set (res := requests_post world (log s) url body) in *.
  set (cid' := if truthy (dict_get d "conversation_id" PNone)
               then dict_get d "conversation_id" PNone else conversation_id s).
  assert (Hupd :
    (if truthy (dict_get d "conversation_id" PNone)
     then set_conversation_id (dict_get d "conversation_id" PNone)
     else ret tt)
      {| conversation_id := conversation_id s;
         log := (log s ++ [BridgePost url body res])%list |}
    = Returned tt {| conversation_id := cid';
                     log := (log s ++ [BridgePost url body res])%list |}).
  { subst cid'. destruct (truthy (dict_get d "conversation_id" PNone));
      reflexivity. }
  rewrite Hupd. clearbody cid'.
  assert (Hvac : forall (e : exn) hr', res = Ok hr' ->
                   is_error_status hr' = true -> e = HTTPError (status_code hr')).
  { intros e hr' Hhr' Herr. rewrite Hres in Hhr'. injection Hhr' as <-.
    congruence. }
  destruct (dict_get d "response" PNone) eqn:Hresp; cbn [slice_preview ret raise];
    try (left; eexists; split; [reflexivity | apply Hvac]);
    (destruct (dict_get d "citations" (PList [])) eqn:Hcit; cbn [py_len ret raise];
     try (left; eexists; split; [reflexivity | apply Hvac]));
    right; exists hr, d;
    (split; [assumption | split; [assumption | split; [assumption |]]]);
    rewrite ?Hresp; unfold create; cbn [conversation_id log];
    match goal with
    | |- context [messages_create world ?l ?r] =>
        destruct (messages_create world l r); reflexivity
    end.
Qed.

(** ** Facts about a whole exchange *)

(** The loop only adds to the log, and what it adds has the shape of
    [rounds_ok]; the identifier it leaves behind and the one each bridge
    request carried are those [stored_after] and [session_ok] describe. *)
Lemma process_tool_calls_log (fuel : nat) :
  forall (messages : list turn) (response : chat_response) (s : state),
  exists evs,
    log (final_state (process_tool_calls world url key fuel messages response s))
      = (log s ++ evs)%list /\
    conversation_id
      (final_state (process_tool_calls world url key fuel messages response s))
      = stored_after (conversation_id s) evs /\
    session_ok (conversation_id s) evs /\
    rounds_ok messages response evs.
Proof.
  induction fuel as [| fuel IH]; intros messages response s;
    cbn [process_tool_calls];
    destruct (stop_reason response =? "tool_use")%string;
    try (exists []; cbn; rewrite app_nil_r; repeat split; exact I).
  unfold bind.
  destruct (tool_use_round_cases messages response s)
    as [[_ Hr] | [(id & name & input & _ & _ & Hr)
       | (id & name & input & m & Hf & Hm & Hr)]].
  - rewrite Hr. exists []. cbn. rewrite app_nil_r. repeat split; exact I.
  - rewrite Hr. exists []. cbn. rewrite app_nil_r. repeat split; exact I.
  - cbv zeta in Hr.
    set (body := request_body m (conversation_id s)) in *.
    set (res := requests_post world (log s) url body) in *.
    destruct Hr as [(e & Hr & _) | (hr & d & Hres & _ & Hjs & Hr)].
    + rewrite Hr. exists [BridgePost url body res]. cbn.
      repeat split; try exact I. exists m. reflexivity.
    + rewrite Hr. cbn [conversation_id log] in *.
      set (messages' := (messages ++ [assistant_turn response;
             tool_result_turn id (dict_get d "response" PNone)])%list) in *.
      set (req := create_request key messages') in *.
      set (cres := messages_create world (log s ++ [BridgePost url body res]) req) in *.
      assert (Hshape : exists id name input hr d,
                 first_tool_use (content response) = Some (id, name, input) /\
                 res = Ok hr /\ json_body hr = Some (PDict d) /\
                 req_messages req =
                   (messages ++ [assistant_turn response;
                      tool_result_turn id (dict_get d "response" PNone)])%list).
      { exists id, name, input, hr, d. repeat split; assumption || reflexivity. }
      destruct cres as [r' | e] eqn:Hcres.
      * cbn [fst snd].
        destruct (IH messages' r'
                    {| conversation_id := next_id (conversation_id s) res;
                       log := ((log s ++ [BridgePost url body res])
                                 ++ [ChatCall req (Ok r')])%list |})
          as (evs & Hlog & Hcid & Hsess & Hrounds).
        cbn [conversation_id log] in *.
        exists (BridgePost url body res :: ChatCall req (Ok r') :: evs).
        rewrite Hlog, Hcid. cbn [stored_after session_ok rounds_ok].
        repeat split; try assumption.
        -- rewrite <- !app_assoc. reflexivity.
        -- exists m. reflexivity.
      * exists [BridgePost url body res; ChatCall req (Err e)].
        cbn [final_state conversation_id log stored_after session_ok rounds_ok].
        repeat split; try assumption; try exact I.
        -- rewrite <- app_assoc. reflexivity.
        -- exists m. reflexivity.
Qed.

(** An exchange is one chat call with the user's message alone and then the
    rounds of the loop. *)
Lemma chat_with_claude_log (fuel : nat) (user_message : string) (s : state) :
  exists res evs,
    let first := [ {| role := "user"; turn_body := ContentText user_message |} ] in
    log (final_state (chat_with_claude world url key fuel user_message s))
      = (log s ++ ChatCall (create_request key first) res :: evs)%list /\
    conversation_id (final_state (chat_with_claude world url key fuel user_message s))
      = stored_after (conversation_id s) evs /\
    session_ok (conversation_id s) evs /\
    match res with
    | Ok r => rounds_ok first r evs
    | Err _ => evs = []
    end.
Proof.
  unfold chat_with_claude, bind, create.
  set (first := [ {| role := "user"; turn_body := ContentText user_message |} ]).
  destruct (messages_create world (log s) (create_request key first))
    as [r | e] eqn:Hc; cbn [lift ret raise].
  - destruct (process_tool_calls_log fuel first r
                {| conversation_id := conversation_id s;
                   log := (log s ++ [ChatCall (create_request key first) (Ok r)])%list |})
      as (evs & Hlog & Hcid & Hsess & Hrounds).
    cbn [conversation_id log] in *.
    exists (Ok r), evs. cbv zeta. rewrite Hlog, Hcid, <- app_assoc.
    repeat split; assumption.
  - exists (Err e), []. cbn. repeat split; exact I.
Qed.

End Facts.

(** ** Facts about lists of blocks and of events *)

Lemma first_text_after_tool_blocks (pre post : list block) (t : string) :
  (forall b, In b pre -> forall t', b <> TextBlock t') ->
  first_text (pre ++ TextBlock t :: post) = Some t.
Proof.
  induction pre as [| b pre IH]; intros Hpre; [reflexivity |].
  destruct b as [t' | id name input].
  - exfalso. apply (Hpre (TextBlock t') (or_introl eq_refl) t'). reflexivity.
  - cbn. apply IH. intros b Hb. apply Hpre. right. exact Hb.
Qed.

Lemma first_text_no_text (bs : list block) :
  (forall b, In b bs -> forall t, b <> TextBlock t) ->
  first_text bs = None.
Proof.
  induction bs as [| b bs IH]; intros Hbs; [reflexivity |].
  destruct b as [t | id name input].
  - exfalso. apply (Hbs (TextBlock t) (or_introl eq_refl) t). reflexivity.
  - cbn. apply IH. intros b Hb. apply Hbs. right. exact Hb.
Qed.

Lemma first_tool_use_after_text_blocks (pre post : list block)
  (id name : string) (input : dict) :
  (forall b, In b pre -> exists t, b = TextBlock t) ->
  first_tool_use (pre ++ ToolUseBlock id name input :: post)
    = Some (id, name, input).
Proof.
  induction pre as [| b pre IH]; intros Hpre; [reflexivity |].
  destruct (Hpre b (or_introl eq_refl)) as [t ->].
  cbn. apply IH. intros b Hb. apply Hpre. right. exact Hb.
Qed.

Lemma stored_after_app (cid : pyval) (evs1 evs2 : list event) :
  stored_after cid (evs1 ++ evs2) = stored_after (stored_after cid evs1) evs2.
Proof.
  revert cid. induction evs1 as [| [req res | u b res] evs1 IH]; intros cid;
    cbn; auto.
Qed.

Lemma session_ok_app (cid : pyval) (evs1 evs2 : list event) :
  session_ok cid evs1 ->
  session_ok (stored_after cid evs1) evs2 ->
  session_ok cid (evs1 ++ evs2).
Proof.
  revert cid. induction evs1 as [| [req res | u b res] evs1 IH]; intros cid;
    cbn; auto.
  intros [Hb H1] H2. split; auto.
Qed.

Lemma session_ok_split (cid : pyval) (evs1 evs2 : list event) :
  session_ok cid (evs1 ++ evs2) ->
  session_ok cid evs1 /\ session_ok (stored_after cid evs1) evs2.
Proof.
  revert cid. induction evs1 as [| [req res | u b res] evs1 IH]; intros cid;
    cbn; auto.
  intros [Hb H]. destruct (IH _ H) as [H1 H2]. auto.
Qed.

Lemma stored_after_chat_calls (cid : pyval) (evs : list event) :
  forallb is_chat_call evs = true -> stored_after cid evs = cid.
Proof.
  induction evs as [| [req res | u b res] evs IH]; cbn; auto. discriminate.
Qed.

(** ** Facts about a terminal response *)

Lemma process_tool_calls_terminal (world : services) (url key : string)
  (fuel : nat) (messages : list turn) (response : chat_response) (s : state) :
  stop_reason response <> "tool_use" ->
  process_tool_calls world url key fuel messages response s
    = Returned (first_text (content response)) s.
Proof.
  intros Hstop. apply String.eqb_neq in Hstop.
  destruct fuel; cbn [process_tool_calls]; rewrite Hstop; reflexivity.
Qed.

Lemma chat_with_claude_terminal (world : services) (url key : string)
  (fuel : nat) (user_message : string) (response : chat_response) (s : state) :
  let first := [ {| role := "user"; turn_body := ContentText user_message |} ] in
  messages_create world (log s) (create_request key first) = Ok response ->
  stop_reason response <> "tool_use" ->
  chat_with_claude world url key fuel user_message s
    = Returned (first_text (content response))
        {| conversation_id := conversation_id s;
           log := (log s ++ [ChatCall (create_request key first) (Ok response)])%list |}.
Proof.
  intros first Hc Hstop. unfold chat_with_claude, bind, create.
  fold first. rewrite Hc. cbn [lift ret].
  apply process_tool_calls_terminal. exact Hstop.
Qed.

(** ** The claims *)

(** C1: when the chat service's response has a terminal stop reason (any
    other than "tool_use"), the loop returns the text of the first text block
    of that response and leaves the state as it was, log included: nothing is
    called, the bridge in particular.  An exchange whose first response is
    terminal therefore returns that text after its one chat call, with no
    bridge call in the log. *)
Theorem terminal_response_returns_first_text
  (world : services) (url key : string) (fuel : nat)
  (messages : list turn) (response : chat_response) (s : state)
  (pre post : list block) (t : string) :
  stop_reason response <> "tool_use" ->
  content response = (pre ++ TextBlock t :: post)%list ->
  (forall b, In b pre -> forall t', b <> TextBlock t') ->
  process_tool_calls world url key fuel messages response s = Returned (Some t) s
  /\
  (forall user_message s0,
      let first := [ {| role := "user"; turn_body := ContentText user_message |} ] in
      messages_create world (log s0) (create_request key first) = Ok response ->
      chat_with_claude world url key fuel user_message s0
        = Returned (Some t)
            {| conversation_id := conversation_id s0;
               log := (log s0 ++ [ChatCall (create_request key first) (Ok response)])%list |}).
Proof.
  intros Hstop Hcontent Hpre.
  assert (Ht : first_text (content response) = Some t).
  { rewrite Hcontent. apply first_text_after_tool_blocks. exact Hpre. }
  split.
  - rewrite <- Ht. apply process_tool_calls_terminal. exact Hstop.
  - intros user_message s0 first Hc. rewrite <- Ht.
    apply chat_with_claude_terminal; assumption.
Qed.

(** C10: for a terminal response the loop always returns a value, an
    optional text, and that value is [None] when no content block of the
    response is a text block; no exception is raised. *)
Theorem terminal_response_without_text_returns_None
  (world : services) (url key : string) (fuel : nat)
  (messages : list turn) (response : chat_response) (s : state) :
  stop_reason response <> "tool_use" ->
  (exists v : option string,
      process_tool_calls world url key fuel messages response s = Returned v s)
  /\
  ((forall b, In b (content response) -> forall t, b <> TextBlock t) ->
   process_tool_calls world url key fuel messages response s = Returned None s).
Proof.
  intros Hstop. split.
  - eexists. apply process_tool_calls_terminal. exact Hstop.
  - intros Hno. rewrite <- (first_text_no_text (content response) Hno).
    apply process_tool_calls_terminal. exact Hstop.
Qed.

(** C8: when the environment has no ANTHROPIC_API_KEY, the program raises
    ValueError while the module is loading, with an empty log: neither the
    chat service nor the bridge has been called. *)
Theorem missing_credential_is_fatal_before_any_call
  (environ : string -> option string) (world : services) (fuel : nat) :
  environ "ANTHROPIC_API_KEY" = None ->
  program environ world fuel
    = Raised (ValueError "Please set ANTHROPIC_API_KEY environment variable") boot
  /\ log (final_state (program environ world fuel)) = [].
Proof.
  intros Hkey. unfold program, getenv. rewrite Hkey. split; reflexivity.
Qed.

(** ** The session across exchanges *)

Lemma keeps_session_ret {A : Type} (a : A) : keeps_session (ret a).
Proof.
  intros s. exists []. cbn. rewrite app_nil_r. auto.
Qed.

Lemma keeps_session_bind {A B : Type} (m : M A) (k : A -> M B) :
  keeps_session m -> (forall a, keeps_session (k a)) ->
  keeps_session (bind m k).
Proof.
  intros Hm Hk s. unfold bind.
  destruct (Hm s) as (evs1 & Hlog1 & Hs1 & Hc1).
  destruct (m s) as [a s1 | e s1 | s1]; cbn [final_state] in *;
    try solve [exists evs1; auto].
  destruct (Hk a s1) as (evs2 & Hlog2 & Hs2 & Hc2).
  exists (evs1 ++ evs2)%list. rewrite Hlog2, Hlog1, Hc2, Hc1, app_assoc.
  rewrite Hc1 in Hs2. split; [reflexivity | split].
  - apply session_ok_app; assumption.
  - symmetry. apply stored_after_app.
Qed.

Lemma chat_with_claude_keeps_session (world : services) (url key : string)
  (fuel : nat) (user_message : string) :
  keeps_session (chat_with_claude world url key fuel user_message).
Proof.
  intros s.
  destruct (chat_with_claude_log world url key fuel user_message s)
    as (res & evs & Hlog & Hcid & Hsess & _).
  cbv zeta in Hlog. eexists. split; [exact Hlog | split; assumption].
Qed.

Lemma main_keeps_session (world : services) (url key : string) (fuel : nat) :
  keeps_session (main world url key fuel).
Proof.
  unfold main.
  repeat (apply keeps_session_bind;
          [apply chat_with_claude_keeps_session | intros _]).
  apply keeps_session_ret.
Qed.

(** The bridge requests of a whole run of the program start from no
    identifier. *)
Lemma program_session_ok (environ : string -> option string)
  (world : services) (fuel : nat) :
  session_ok PNone (log (final_state (program environ world fuel))).
Proof.
  unfold program.
  destruct (getenv environ "ANTHROPIC_API_KEY") as [k |]; [| exact I].
  destruct (k =? "")%string; [exact I |].
  match goal with
  | |- context [main world ?u k fuel boot] =>
      destruct (main_keeps_session world u k fuel boot) as (evs & Hlog & Hs & _)
  end.
  rewrite Hlog. exact Hs.
Qed.

(** The request that follows chat calls only was built from the identifier
    stored before them. *)
Lemma session_ok_first_post (cid : pyval) (before after : list event)
  (u : string) (b : pyval) (r : result http_response) :
  session_ok cid (before ++ BridgePost u b r :: after) ->
  forallb is_chat_call before = true ->
  (exists m, b = request_body m cid) /\ session_ok (next_id cid r) after.
Proof.
  intros H Hbefore. apply session_ok_split in H. destruct H as [_ H].
  rewrite (stored_after_chat_calls cid before Hbefore) in H. exact H.
Qed.

(** What a round leaves behind when the response has a first tool-use block:
    KeyError and the state unchanged when the block's input has no "message"
    entry; otherwise one bridge call first, built from that entry and the stored
    identifier, and the identifier [next_id] computes. *)
Lemma tool_use_round_state (world : services) (url key : string)
  (messages : list turn) (response : chat_response) (s : state)
  (id name : string) (input : dict) :
  first_tool_use (content response) = Some (id, name, input) ->
  match dict_lookup input "message" with
  | None =>
      tool_use_round world url key messages response s
        = Raised (KeyError "message") s
  | Some m =>
      let body := request_body m (conversation_id s) in
      let res := requests_post world (log s) url body in
      exists rest,
        final_state (tool_use_round world url key messages response s)
        = {| conversation_id := next_id (conversation_id s) res;
             log := (log s ++ BridgePost url body res :: rest)%list |}
        /\ (rest = [] \/ exists req cres, rest = [ChatCall req cres])
  end.
Proof.
  intros Hf.
  destruct (tool_use_round_cases world url key messages response s)
    as [[Hn _] | [(id' & name' & input' & Hf' & Hm' & Hr)
       | (id' & name' & input' & m' & Hf' & Hm' & Hr)]].
  - congruence.
  - rewrite Hf in Hf'. injection Hf' as <- <- <-. rewrite Hm'. exact Hr.
  - rewrite Hf in Hf'. injection Hf' as <- <- <-. rewrite Hm'.
    cbv zeta in *.
    destruct Hr as [(e & Hr & _) | (hr & d & _ & _ & _ & Hr)]; rewrite Hr.
    + exists []. split; [reflexivity | left; reflexivity].
    + cbn [conversation_id log].
      match goal with
      | |- context [messages_create world ?l ?q] =>
          destruct (messages_create world l q) as [r' | e]
      end; cbn [final_state]; eexists; rewrite <- app_assoc; cbn [app];
        (split; [reflexivity | right; eauto]).
Qed.

(** The same for the loop: it starts with that bridge call, and what follows
    is nothing or begins with the next chat call. *)
Lemma process_tool_calls_first_post (world : services) (url key : string)
  (fuel : nat) (messages : list turn) (response : chat_response) (s : state)
  (id name : string) (input : dict) (m : pyval) :
  stop_reason response = "tool_use" ->
  first_tool_use (content response) = Some (id, name, input) ->
  dict_lookup input "message" = Some m ->
  exists rest,
    log (final_state
           (process_tool_calls world url key (S fuel) messages response s))
    = (log s ++
       BridgePost url (request_body m (conversation_id s))
         (requests_post world (log s) url
            (request_body m (conversation_id s))) :: rest)%list
    /\ (rest = [] \/ exists req cres rest', rest = ChatCall req cres :: rest').
Proof.
  intros Hstop Hf Hm.
  cbn [process_tool_calls]. apply String.eqb_eq in Hstop. rewrite Hstop.
  unfold bind.
  pose proof (tool_use_round_state world url key messages response s
                id name input Hf) as Hround.
  rewrite Hm in Hround. cbv zeta in Hround.
  destruct Hround as (rest & Hfinal & Hrest).
  destruct (tool_use_round world url key messages response s)
    as [[ms r'] s' | e s' | s'] eqn:Hr; cbn [final_state] in Hfinal;
    try (exists rest; rewrite Hfinal; split;
         [reflexivity
         | destruct Hrest as [-> | (req & cres & ->)];
           [left; reflexivity | right; eauto]]).
  cbn [fst snd].
  destruct (process_tool_calls_log world url key fuel ms r' s')
    as (evs & Hlog & _).
  rewrite Hlog, Hfinal. cbn [log].
  destruct Hrest as [-> | (req & cres & ->)]; rewrite <- app_assoc; cbn [app];
    eexists; (split; [reflexivity |]).
  - destruct evs; [left; reflexivity |].
    exfalso. clear Hlog.
    destruct (tool_use_round_cases world url key messages response s)
      as [[_ Hc] | [(? & ? & ? & _ & _ & Hc) | (? & ? & ? & ? & _ & _ & Hc)]];
      try congruence.
    cbv zeta in Hc.
    destruct Hc as [(e' & Hc & _) | (hr & d & _ & _ & _ & Hc)];
      [congruence |].
    rewrite Hr in Hc.
    match type of Hc with
    | context [messages_create world ?l ?q] =>
        destruct (messages_create world l q); [| discriminate]
    end.
    injection Hc as _ _ Hs'. rewrite Hs' in Hfinal.
    injection Hfinal as _ Hl. rewrite <- app_assoc in Hl.
    apply app_inv_head in Hl. discriminate.
  - right. eauto.
Qed.

(** C2: when the response's stop reason is "tool_use" and its first tool-use
    block has a "message" entry, the first thing the loop does is one bridge
    call, whose request is built from that entry and from the session
    identifier stored at that moment; what follows is either nothing (the
    round raised) or the next chat call, so exactly one bridge call precedes
    it.  In a run of the whole program the first bridge call carries no
    identifier: it is a "new_conversation" request. *)
Theorem tool_use_response_calls_bridge_once
  (world : services) (url key : string) (fuel : nat)
  (messages : list turn) (response : chat_response) (s : state)
  (pre post : list block) (id name : string) (input : dict) (m : pyval) :
  stop_reason response = "tool_use" ->
  content response = (pre ++ ToolUseBlock id name input :: post)%list ->
  (forall b, In b pre -> exists t, b = TextBlock t) ->
  dict_lookup input "message" = Some m ->
  (exists rest,
      log (final_state
             (process_tool_calls world url key (S fuel) messages response s))
      = (log s ++
         BridgePost url (request_body m (conversation_id s))
           (requests_post world (log s) url
              (request_body m (conversation_id s))) :: rest)%list
      /\ (rest = [] \/ exists req cres rest', rest = ChatCall req cres :: rest'))
  /\
  (forall environ fuel' before u b r after,
      log (final_state (program environ world fuel'))
        = (before ++ BridgePost u b r :: after)%list ->
      forallb is_chat_call before = true ->
      exists m', b = PDict [ ("action", PStr "new_conversation");
                             ("message", m');
                             ("persona", PStr "david") ]).
Proof.
  intros Hstop Hcontent Hpre Hm.
  assert (Hf : first_tool_use (content response) = Some (id, name, input)).
  { rewrite Hcontent. apply first_tool_use_after_text_blocks. exact Hpre. }
  split.
  - apply (process_tool_calls_first_post world url key fuel messages response s
             id name input m Hstop Hf Hm).
  - intros environ fuel' before u b r after Hlog Hbefore.
    pose proof (program_session_ok environ world fuel') as Hs.
    rewrite Hlog in Hs.
    destruct (session_ok_first_post _ _ _ _ _ _ Hs Hbefore) as [[m' Hb] _].
    exists m'. exact Hb.
Qed.

(** C3 (amended): in a run of the program, take two bridge calls with only
    chat calls between them.  If the first returned a truthy (for a string:
    non-empty) conversation identifier, the second is a "reply_to_conversation"
    request carrying exactly that identifier.  If the first returned none, or
    a falsy one, the second is built from the same stored identifier as the
    first was: the stored identifier did not change. *)
Theorem stored_identifier_is_sent_back
  (environ : string -> option string) (world : services) (fuel : nat)
  (before between after : list event)
  (u1 u2 : string) (b1 b2 : pyval) (r1 r2 : result http_response) :
  log (final_state (program environ world fuel))
    = (before ++ BridgePost u1 b1 r1 :: between ++ BridgePost u2 b2 r2 :: after)%list ->
  forallb is_chat_call between = true ->
  (forall v, returned_identifier r1 = Some v -> truthy v = true ->
     exists m, b2 = PDict [ ("action", PStr "reply_to_conversation");
                            ("conversation_id", v);
                            ("message", m) ])
  /\
  ((returned_identifier r1 = None \/
    exists v, returned_identifier r1 = Some v /\ truthy v = false) ->
   exists m1 m2,
     b1 = request_body m1 (stored_after PNone before) /\
     b2 = request_body m2 (stored_after PNone before)).
Proof.
  intros Hlog Hbetween.
  pose proof (program_session_ok environ world fuel) as Hs.
  rewrite Hlog in Hs. apply session_ok_split in Hs. destruct Hs as [_ Hs].
  cbn [session_ok] in Hs. destruct Hs as [[m1 Hb1] Hs].
  destruct (session_ok_first_post _ _ _ _ _ _ Hs Hbetween) as [[m2 Hb2] _].
  split.
  - intros v Hv Ht. exists m2. rewrite Hb2. unfold next_id. rewrite Hv, Ht.
    unfold request_body. rewrite Ht. reflexivity.
  - intros Hnone. exists m1, m2. split; [exact Hb1 |].
    rewrite Hb2. unfold next_id.
    destruct Hnone as [-> | (v & -> & ->)]; reflexivity.
Qed.

(** ** The transcript *)

Lemma skipn_length_app {A : Type} (l1 l2 : list A) :
  skipn (List.length l1) (l1 ++ l2) = l2.
Proof.
  induction l1 as [| a l1 IH]; [reflexivity | exact IH].
Qed.

(** Along the rounds of an exchange, each chat call's message list is the
    one of the call before it with two turns added: the assistant's turn
    holding the content just received, and the tool result for the first
    tool-use block of that content. *)
Lemma rounds_ok_chain (k : nat) :
  forall (evs : list event) (r : chat_response) (req0 : chat_request)
         (req1 req2 : chat_request) (res1 res2 : result chat_response),
    rounds_ok (req_messages req0) r evs ->
    nth_error (chat_calls (ChatCall req0 (Ok r) :: evs)) k = Some (req1, res1) ->
    nth_error (chat_calls (ChatCall req0 (Ok r) :: evs)) (S k) = Some (req2, res2) ->
    exists r1 id name input text,
      res1 = Ok r1 /\
      first_tool_use (content r1) = Some (id, name, input) /\
      req_messages req2
        = (req_messages req1 ++ [assistant_turn r1; tool_result_turn id text])%list.
Proof.
  induction k as [| k IH]; intros evs r req0 req1 req2 res1 res2 Hr H1 H2;
    destruct evs as [| [q c | u b res] evs1]; cbn in Hr, H1, H2;
    try contradiction; try discriminate; try (destruct k; discriminate);
    destruct evs1 as [| [req cres | u' b' res'] evs2]; cbn in Hr, H1, H2;
    try contradiction; try discriminate; try (destruct k; discriminate);
    destruct Hr as [(id & name & input & hr & d & Hf & _ & _ & Hreq) Hrest].
  - injection H1 as <- <-. injection H2 as <- <-.
    exists r, id, name, input, (dict_get d "response" PNone). auto.
  - destruct cres as [r' | e].
    + apply (IH evs2 r' req req1 req2 res1 res2 Hrest); assumption.
    + subst evs2. destruct k; discriminate.
Qed.

(** C4: within one exchange, the first chat call is sent the user's message
    alone, and the message list sent with every later chat call is the list
    sent with the call before it followed by exactly two turns: the assistant
    turn holding the content of the previous response, then a user turn
    holding the tool result keyed to the identifier of that response's first
    tool-use block.  Nothing already in the list is changed or removed. *)
Theorem transcript_is_append_only
  (world : services) (url key : string) (fuel : nat)
  (user_message : string) (s : state) :
  let calls :=
    chat_calls
      (skipn (List.length (log s))
         (log (final_state (chat_with_claude world url key fuel user_message s)))) in
  (exists res0,
      nth_error calls 0
      = Some (create_request key
                [ {| role := "user"; turn_body := ContentText user_message |} ],
              res0))
  /\
  (forall k req1 res1 req2 res2,
      nth_error calls k = Some (req1, res1) ->
      nth_error calls (S k) = Some (req2, res2) ->
      exists r1 id name input text,
        res1 = Ok r1 /\
        first_tool_use (content r1) = Some (id, name, input) /\
        req_messages req2
          = (req_messages req1 ++
             [ {| role := "assistant"; turn_body := ContentBlocks (content r1) |};
               {| role := "user"; turn_body := ContentToolResult id text |} ])%list).
Proof.
  destruct (chat_with_claude_log world url key fuel user_message s)
    as (res & evs & Hlog & _ & _ & Hrounds).
  cbv zeta in *. rewrite Hlog, skipn_length_app.
  split; [exists res; reflexivity |].
  intros k req1 res1 req2 res2 H1 H2.
  destruct res as [r | e].
  - exact (rounds_ok_chain k evs r
             (create_request key
                [ {| role := "user"; turn_body := ContentText user_message |} ])
             req1 req2 res1 res2 Hrounds H1 H2).
  - subst evs. destruct k; discriminate.
Qed.

(** ** A bridge response with an error status *)

Lemma app_eq_self_inv {A : Type} (l x : list A) : l = (l ++ x)%list -> x = [].
Proof.
  intros H. rewrite <- (app_nil_r l) in H at 1.
  apply app_inv_head in H. symmetry. exact H.
Qed.

(** In the log of the loop, a bridge response with a 4xx or 5xx status is the
    last event, and the loop ends by raising HTTPError for it. *)
Lemma process_tool_calls_http_error (world : services) (url key : string)
  (fuel : nat) :
  forall (messages : list turn) (response : chat_response) (s : state)
         (before after : list event) (u : string) (b : pyval)
         (hr : http_response),
    log (final_state (process_tool_calls world url key fuel messages response s))
      = (log s ++ before ++ BridgePost u b (Ok hr) :: after)%list ->
    is_error_status hr = true ->
    after = [] /\
    process_tool_calls world url key fuel messages response s
      = Raised (HTTPError (status_code hr))
          (final_state (process_tool_calls world url key fuel messages response s)).
Proof.
  induction fuel as [| fuel IH];
    intros messages response s before after u b hr Hlog Herr;
    cbn [process_tool_calls] in *;
    destruct (stop_reason response =? "tool_use")%string;
    try (cbn in Hlog; apply app_eq_self_inv in Hlog;
         destruct before; discriminate).
  unfold bind in *.
  destruct (tool_use_round_cases world url key messages response s)
    as [[_ Hr] | [(id & name & input & _ & _ & Hr)
       | (id & name & input & m & _ & _ & Hr)]].
  - rewrite Hr in Hlog. cbn in Hlog. apply app_eq_self_inv in Hlog.
    destruct before; discriminate.
  - rewrite Hr in Hlog. cbn in Hlog. apply app_eq_self_inv in Hlog.
    destruct before; discriminate.
  - cbv zeta in Hr.
    destruct Hr as [(e & Hr & Hhttp) | (hr0 & d & Hres & Hok & _ & Hr)];
      rewrite Hr in *.
    + cbn [final_state log] in Hlog. apply app_inv_head in Hlog.
      destruct before as [| x [| y before]]; try discriminate.
      injection Hlog as _ _ Hres Hafter. split; [auto |].
      rewrite (Hhttp hr Hres Herr). reflexivity.
    + cbn [conversation_id log] in *.
      match type of Hlog with
      | context [messages_create world ?l ?q] =>
          destruct (messages_create world l q) as [r' | e] eqn:Hc
      end.
      * cbn [fst snd] in *.
        match type of Hlog with
        | context [process_tool_calls world url key fuel ?ms r' ?s2] =>
            destruct (process_tool_calls_log world url key fuel ms r' s2)
              as (evs & Hlog2 & _);
            specialize (IH ms r' s2)
        end.
        cbn [log] in *. rewrite Hlog2 in Hlog. rewrite <- !app_assoc in Hlog.
        apply app_inv_head in Hlog. cbn [app] in Hlog.
        destruct before as [| x [| y before]]; cbn [app] in Hlog.
        -- injection Hlog as _ _ Hres' _. rewrite Hres in Hres'.
           injection Hres' as ->. congruence.
        -- discriminate.
        -- injection Hlog as _ _ Hevs.
           apply (IH before after u b hr); [| exact Herr].
           rewrite Hlog2, Hevs. reflexivity.
      * cbn [final_state log] in Hlog. rewrite <- !app_assoc in Hlog.
        apply app_inv_head in Hlog. cbn [app] in Hlog.
        destruct before as [| x [| y before]]; cbn [app] in Hlog.
        -- injection Hlog as _ _ Hres' _. rewrite Hres in Hres'.
           injection Hres' as ->. congruence.
        -- discriminate.
        -- injection Hlog as _ _ Hevs. destruct before; discriminate.
Qed.

(** C5 (amended): a bridge response whose status is a client or server error
    (400 to 599) makes [call_david_gpt] raise HTTPError; in an exchange that
    exception is the outcome of [chat_with_claude], and the failed bridge call
    is the last event of the log: no chat call and no second bridge call
    follow it, and no value is returned. *)
Theorem bridge_error_status_aborts_exchange
  (world : services) (url key : string) (fuel : nat)
  (user_message : string) (s : state)
  (before after : list event) (u : string) (b : pyval) (hr : http_response) :
  log (final_state (chat_with_claude world url key fuel user_message s))
    = (log s ++ before ++ BridgePost u b (Ok hr) :: after)%list ->
  400 <= status_code hr < 600 ->
  after = []
  /\ (exists s',
        chat_with_claude world url key fuel user_message s
          = Raised (HTTPError (status_code hr)) s' /\
        log s' = (log s ++ before ++ [BridgePost u b (Ok hr)])%list)
  /\ (forall message cid s0,
        requests_post world (log s0) url (request_body message cid) = Ok hr ->
        call_david_gpt world url message cid s0
          = Raised (HTTPError (status_code hr))
              {| conversation_id := conversation_id s0;
                 log := (log s0 ++ [BridgePost url (request_body message cid)
                                      (Ok hr)])%list |}).
Proof.
  intros Hlog Hstatus. apply is_error_status_iff in Hstatus.
  assert (Hcall : forall message cid s0,
             requests_post world (log s0) url (request_body message cid) = Ok hr ->
             call_david_gpt world url message cid s0
               = Raised (HTTPError (status_code hr))
                   {| conversation_id := conversation_id s0;
                      log := (log s0 ++ [BridgePost url (request_body message cid)
                                           (Ok hr)])%list |}).
  { intros message cid s0 Hpost. unfold call_david_gpt, bind, post.
    rewrite Hpost. cbn [lift ret]. unfold raise_for_status. rewrite Hstatus.
    reflexivity. }
  assert (Hmain : after = [] /\
            chat_with_claude world url key fuel user_message s
              = Raised (HTTPError (status_code hr))
                  (final_state (chat_with_claude world url key fuel user_message s))).
  { revert Hlog. unfold chat_with_claude, bind, create.
    match goal with
    | |- context [messages_create world ?l ?q] =>
        destruct (messages_create world l q) as [r | e] eqn:Hc
    end; cbn [lift ret raise final_state log]; intros Hlog.
    - match type of Hlog with
      | context [process_tool_calls world url key fuel ?ms r ?s1] =>
          destruct (process_tool_calls_log world url key fuel ms r s1)
            as (evs & Hlog1 & _);
          pose proof (process_tool_calls_http_error world url key fuel ms r s1)
            as Hloop
      end.
      cbn [log] in *. rewrite Hlog1 in Hlog. rewrite <- app_assoc in Hlog.
      apply app_inv_head in Hlog. cbn [app] in Hlog.
      destruct before as [| x before]; cbn [app] in Hlog; [discriminate |].
      injection Hlog as _ Hevs.
      apply (Hloop before after u b hr); [| exact Hstatus].
      rewrite Hlog1, Hevs. reflexivity.
    - apply app_inv_head in Hlog.
      destruct before as [| x [| y before]]; discriminate. }
  destruct Hmain as [Hafter Hout]. split; [exact Hafter | split; [| exact Hcall]].
  eexists. split; [exact Hout |]. rewrite Hlog, Hafter. reflexivity.
Qed.

(** C9 (amended): if the bridge answers the loop's call with a client or
    server error status (400 to 599), the stored conversation identifier when
    the loop ends is exactly the one stored before that call; and
    [call_david_gpt] itself never touches the stored identifier. *)
Theorem bridge_error_status_keeps_identifier
  (world : services) (url key : string) (fuel : nat)
  (messages : list turn) (response : chat_response) (s : state)
  (pre post : list block) (id name : string) (input : dict) (m : pyval)
  (hr : http_response) :
  stop_reason response = "tool_use" ->
  content response = (pre ++ ToolUseBlock id name input :: post)%list ->
  (forall b, In b pre -> exists t, b = TextBlock t) ->
  dict_lookup input "message" = Some m ->
  requests_post world (log s) url (request_body m (conversation_id s)) = Ok hr ->
  400 <= status_code hr < 600 ->
  conversation_id
    (final_state (process_tool_calls world url key (S fuel) messages response s))
    = conversation_id s
  /\ conversation_id
       (final_state (call_david_gpt world url m (conversation_id s) s))
     = conversation_id s.
Proof.
  intros Hstop Hcontent Hpre Hm Hpost Hstatus.
  apply is_error_status_iff in Hstatus.
  assert (Hf : first_tool_use (content response) = Some (id, name, input)).
  { rewrite Hcontent. apply first_tool_use_after_text_blocks. exact Hpre. }
  split.
  - cbn [process_tool_calls]. apply String.eqb_eq in Hstop. rewrite Hstop.
    unfold bind.
    destruct (tool_use_round_cases world url key messages response s)
      as [[Hn _] | [(id' & name' & input' & Hf' & Hm' & _)
         | (id' & name' & input' & m' & Hf' & Hm' & Hr)]].
    + congruence.
    + rewrite Hf in Hf'. injection Hf' as <- <- <-. congruence.
    + rewrite Hf in Hf'. injection Hf' as <- <- <-.
      rewrite Hm in Hm'. injection Hm' as <-. cbv zeta in Hr.
      rewrite Hpost in Hr.
      destruct Hr as [(e & Hr & _) | (hr0 & d & Hres & Hok & _)].
      * rewrite Hr. cbn [final_state conversation_id].
        unfold next_id, returned_identifier. rewrite Hstatus. reflexivity.
      * injection Hres as <-. congruence.
  - destruct (call_david_gpt_cases world url m (conversation_id s) s)
      as [(e & Hc & _) | (hr0 & d & _ & _ & _ & _ & Hc)];
      cbv zeta in Hc; rewrite Hc; reflexivity.
Qed.

(** C6: the loop never looks at the name of the tool-use block.  For two
    responses whose first tool-use blocks have the same identifier and input
    and any two names, the loop makes the same bridge call (same request,
    same answer) as its first step, or raises the same KeyError when the input
    has no "message" entry; and one round leaves the same stored identifier.
    The name "ask_david_gpt" plays no part. *)
Theorem dispatch_ignores_tool_name
  (world : services) (url key : string) (fuel : nat)
  (messages : list turn) (r1 r2 : chat_response) (s : state)
  (id n1 n2 : string) (input : dict) :
  stop_reason r1 = "tool_use" ->
  stop_reason r2 = "tool_use" ->
  first_tool_use (content r1) = Some (id, n1, input) ->
  first_tool_use (content r2) = Some (id, n2, input) ->
  (forall m, dict_lookup input "message" = Some m ->
     exists rest1 rest2,
       log (final_state (process_tool_calls world url key (S fuel) messages r1 s))
       = (log s ++
          BridgePost url (request_body m (conversation_id s))
            (requests_post world (log s) url
               (request_body m (conversation_id s))) :: rest1)%list
       /\
       log (final_state (process_tool_calls world url key (S fuel) messages r2 s))
       = (log s ++
          BridgePost url (request_body m (conversation_id s))
            (requests_post world (log s) url
               (request_body m (conversation_id s))) :: rest2)%list)
  /\
  (dict_lookup input "message" = None ->
     process_tool_calls world url key (S fuel) messages r1 s
       = Raised (KeyError "message") s
     /\ process_tool_calls world url key (S fuel) messages r2 s
       = Raised (KeyError "message") s)
  /\
  conversation_id (final_state (tool_use_round world url key messages r1 s))
  = conversation_id (final_state (tool_use_round world url key messages r2 s)).
Proof.
  intros Hs1 Hs2 Hf1 Hf2.
  pose proof (tool_use_round_state world url key messages r1 s id n1 input Hf1)
    as H1.
  pose proof (tool_use_round_state world url key messages r2 s id n2 input Hf2)
    as H2.
  split; [| split].
  - intros m Hm.
    destruct (process_tool_calls_first_post world url key fuel messages r1 s
                id n1 input m Hs1 Hf1 Hm) as (rest1 & Hl1 & _).
    destruct (process_tool_calls_first_post world url key fuel messages r2 s
                id n2 input m Hs2 Hf2 Hm) as (rest2 & Hl2 & _).
    exists rest1, rest2. split; assumption.
  - intros Hm. rewrite Hm in H1, H2.
    cbn [process_tool_calls].
    apply String.eqb_eq in Hs1, Hs2. rewrite Hs1, Hs2.
    unfold bind. rewrite H1, H2. split; reflexivity.
  - destruct (dict_lookup input "message") as [m |].
    + cbv zeta in H1, H2.
      destruct H1 as (rest1 & -> & _). destruct H2 as (rest2 & -> & _).
      reflexivity.
    + rewrite H1, H2. reflexivity.
Qed.

(** C7 (amended): [call_david_gpt] makes one post.  With no identifier
    ([None]) or an empty one, its body is {"action": "new_conversation",
    "message": message, "persona": "david"}; with a non-empty identifier it is
    {"action": "reply_to_conversation", "conversation_id": identifier,
    "message": message}.  When it returns, the record holds the three entries
    of the decoded response, absent ones as [None], and an absent "citations"
    as the empty list. *)
Theorem call_david_gpt_request_and_result
  (world : services) (url : string) (message cid : pyval) (s : state) :
  log (final_state (call_david_gpt world url message cid s))
    = (log s ++ [BridgePost url (request_body message cid)
                   (requests_post world (log s) url
                      (request_body message cid))])%list
  /\ (cid = PNone \/ cid = PStr "" ->
      request_body message cid
      = PDict [ ("action", PStr "new_conversation");
                ("message", message);
                ("persona", PStr "david") ])
  /\ (forall c, cid = PStr c -> c <> "" ->
      request_body message cid
      = PDict [ ("action", PStr "reply_to_conversation");
                ("conversation_id", PStr c);
                ("message", message) ])
  /\ (forall br s',
        call_david_gpt world url message cid s = Returned br s' ->
        exists hr d,
          requests_post world (log s) url (request_body message cid) = Ok hr /\
          json_body hr = Some (PDict d) /\
          r_conversation_id br = dict_get d "conversation_id" PNone /\
          r_response br = dict_get d "response" PNone /\
          r_citations br = match dict_lookup d "citations" with
                           | Some c => c
                           | None => PList []
                           end).
Proof.
  split; [| split; [| split]].
  - destruct (call_david_gpt_cases world url message cid s)
      as [(e & Hc & _) | (hr & d & _ & _ & _ & _ & Hc)];
      cbv zeta in Hc; rewrite Hc; reflexivity.
  - intros [-> | ->]; reflexivity.
  - intros c -> Hc. unfold request_body. cbn [truthy].
    apply String.eqb_neq in Hc. rewrite Hc. reflexivity.
  - intros br s' Hret.
    destruct (call_david_gpt_cases world url message cid s)
      as [(e & Hc & _) | (hr & d & Hres & _ & Hjs & _ & Hc)];
      cbv zeta in *; rewrite Hc in Hret; [discriminate |].
    injection Hret as <- _. exists hr, d. repeat split; assumption.
Qed.

(** ** The scenarios, run *)

(** The scenario of the specification: "ping" is forwarded to the bridge, the
    bridge answers "pong" in conversation "c1", and the exchange returns the
    chat service's final text with "c1" stored. *)
Example ping_returns :
  exists s, Ping.run = Returned (Some "pong received") s /\
            conversation_id s = PStr "c1" /\
            List.length (log s) = 3%nat.
Proof. eexists. split; [reflexivity | split; reflexivity]. Qed.

(** A chat response with stop reason "tool_use" and no tool-use block, or with
    a tool-use block whose input has no "message" entry, ends the exchange
    with an exception before any bridge call. *)
Example malformed_tool_request_raises :
  process_tool_calls Ping.world Ping.url "sk-test" 1 []
    {| stop_reason := "tool_use"; content := [TextBlock "hm"] |} boot
  = Raised StopIteration boot
  /\ process_tool_calls Ping.world Ping.url "sk-test" 1 []
       {| stop_reason := "tool_use";
          content := [ToolUseBlock "toolu_1" "ask_david_gpt" []] |} boot
     = Raised (KeyError "message") boot.
Proof. split; reflexivity. Qed.

(** C3, as stated, fails: the bridge returns the identifier "" with its first
    answer, and the second bridge request of the same exchange does not carry
    it: it is again a "new_conversation" request. *)
Lemma empty_identifier_is_not_sent_back :
  exists req1 req2 req3 s,
    chat_with_claude EmptyId.world Ping.url "sk-test" 5 "ping" boot
      = Returned (Some "pong received") s /\
    log s = [ ChatCall req1 (Ok Ping.ask);
              BridgePost Ping.url
                (PDict [ ("action", PStr "new_conversation");
                         ("message", PStr "ping");
                         ("persona", PStr "david") ])
                (Ok EmptyId.reply);
              ChatCall req2 (Ok Ping.ask);
              BridgePost Ping.url
                (PDict [ ("action", PStr "new_conversation");
                         ("message", PStr "ping");
                         ("persona", PStr "david") ])
                (Ok EmptyId.reply);
              ChatCall req3 (Ok Ping.answer) ] /\
    returned_identifier (Ok EmptyId.reply) = Some (PStr "") /\
    conversation_id s = PNone.
Proof. do 4 eexists. repeat split. Qed.

(** C5, as stated, fails: 300 is not a 2xx status, yet [call_david_gpt]
    returns and the exchange goes on to a second chat call and returns its
    text. *)
Lemma status_300_does_not_raise :
  status_code Moved.reply = 300 /\
  call_david_gpt Moved.world Ping.url (PStr "ping") PNone boot
    = Returned {| r_conversation_id := PStr "c2";
                  r_response := PStr "see other";
                  r_citations := PList [] |}
        {| conversation_id := PNone;
           log := [ BridgePost Ping.url (request_body (PStr "ping") PNone)
                      (Ok Moved.reply) ] |} /\
  exists req1 b req2 s,
    chat_with_claude Moved.world Ping.url "sk-test" 5 "ping" boot
      = Returned (Some "pong received") s /\
    log s = [ ChatCall req1 (Ok Ping.ask);
              BridgePost Ping.url b (Ok Moved.reply);
              ChatCall req2 (Ok Ping.answer) ].
Proof.
  split; [reflexivity | split; [reflexivity |]].
  do 4 eexists. split; reflexivity.
Qed.

(** C9, as stated, fails: the bridge answers with status 300, not a 2xx
    status, and the stored identifier changes from "c1" to the "c2" of the
    answer. *)
Lemma status_300_updates_identifier :
  status_code Moved.reply = 300 /\
  conversation_id
    (final_state
       (chat_with_claude Moved.world Ping.url "sk-test" 5 "ping"
          {| conversation_id := PStr "c1"; log := [] |}))
  = PStr "c2".
Proof. split; reflexivity. Qed.

(** C7, as stated, fails: with the empty string supplied as identifier the
    request is a "new_conversation" one. *)
Lemma empty_identifier_starts_new_conversation :
  log (final_state (call_david_gpt Ping.world Ping.url (PStr "hi") (PStr "") boot))
  = [ BridgePost Ping.url
        (PDict [ ("action", PStr "new_conversation");
                 ("message", PStr "hi");
                 ("persona", PStr "david") ])
        (Ok Ping.pong) ].
Proof. reflexivity. Qed.

(** ** The theorems at concrete inputs *)

Lemma terminal_response_returns_first_text_witness :
  process_tool_calls Ping.world Ping.url "sk-test" 0 [] Ping.answer boot
  = Returned (Some "pong received") boot.
Proof.
  apply (terminal_response_returns_first_text Ping.world Ping.url "sk-test" 0
           [] Ping.answer boot [] [] "pong received").
  - discriminate.
  - reflexivity.
  - intros b [].
Defined.

Lemma terminal_response_without_text_returns_None_witness :
  process_tool_calls Ping.world Ping.url "sk-test" 0 []
    {| stop_reason := "max_tokens"; content := [] |} boot
  = Returned None boot.
Proof.
  apply (terminal_response_without_text_returns_None Ping.world Ping.url
           "sk-test" 0 [] {| stop_reason := "max_tokens"; content := [] |} boot).
  - discriminate.
  - intros b [].
Defined.

Lemma missing_credential_is_fatal_before_any_call_witness :
  program (fun _ => None) Ping.world 5
    = Raised (ValueError "Please set ANTHROPIC_API_KEY environment variable") boot
  /\ log (final_state (program (fun _ => None) Ping.world 5)) = [].
Proof.
  apply (missing_credential_is_fatal_before_any_call (fun _ => None) Ping.world 5).
  reflexivity.
Defined.

Lemma tool_use_response_calls_bridge_once_witness :
  exists rest,
    log (final_state
           (process_tool_calls Ping.world Ping.url "sk-test" 1 [] Ping.ask boot))
    = (log boot ++
       BridgePost Ping.url (request_body (PStr "ping") (conversation_id boot))
         (requests_post Ping.world (log boot) Ping.url
            (request_body (PStr "ping") (conversation_id boot))) :: rest)%list
    /\ (rest = [] \/ exists req cres rest', rest = ChatCall req cres :: rest').
Proof.
  apply (tool_use_response_calls_bridge_once Ping.world Ping.url "sk-test" 0
           [] Ping.ask boot [] [] "toolu_1" "ask_david_gpt"
           [("message", PStr "ping")] (PStr "ping")).
  - reflexivity.
  - reflexivity.
  - intros b [].
  - reflexivity.
Defined.

Lemma stored_identifier_is_sent_back_witness :
  exists m,
    request_body (PStr "ping") (PStr "c1")
    = PDict [ ("action", PStr "reply_to_conversation");
              ("conversation_id", PStr "c1");
              ("message", m) ].
Proof.
  apply (stored_identifier_is_sent_back Ping.environ Ping.world 5
           (firstn 1 Ping.program_log)
           (firstn 2 (skipn 2 Ping.program_log))
           (skipn 5 Ping.program_log)
           Ping.url Ping.url
           (request_body (PStr "ping") PNone)
           (request_body (PStr "ping") (PStr "c1"))
           (Ok Ping.pong) (Ok Ping.pong)) with (v := PStr "c1").
  - reflexivity.
  - reflexivity.
  - reflexivity.
  - reflexivity.
Defined.

Lemma bridge_error_status_aborts_exchange_witness :
  exists s',
    chat_with_claude Down.world Ping.url "sk-test" 5 "ping" boot
      = Raised (HTTPError 503) s' /\
    log s'
    = (log boot ++ [Ping.first_call "ping"] ++
       [BridgePost Ping.url (request_body (PStr "ping") PNone) (Ok Down.reply)])%list.
Proof.
  apply (bridge_error_status_aborts_exchange Down.world Ping.url "sk-test" 5
           "ping" boot [Ping.first_call "ping"] []
           Ping.url (request_body (PStr "ping") PNone) Down.reply).
  - reflexivity.
  - cbn. lia.
Defined.

Lemma bridge_error_status_keeps_identifier_witness :
  conversation_id
    (final_state
       (process_tool_calls Down.world Ping.url "sk-test" 1 [] Ping.ask
          {| conversation_id := PStr "c1"; log := [] |}))
  = PStr "c1".
Proof.
  apply (bridge_error_status_keeps_identifier Down.world Ping.url "sk-test" 0
           [] Ping.ask {| conversation_id := PStr "c1"; log := [] |}
           [] [] "toolu_1" "ask_david_gpt" [("message", PStr "ping")]
           (PStr "ping") Down.reply).
  - reflexivity.
  - reflexivity.
  - intros b [].
  - reflexivity.
  - reflexivity.
  - cbn. lia.
Defined.

Lemma dispatch_ignores_tool_name_witness :
  conversation_id
    (final_state (tool_use_round Ping.world Ping.url "sk-test" [] Ping.ask boot))
  = conversation_id
      (final_state
         (tool_use_round Ping.world Ping.url "sk-test" []
            {| stop_reason := "tool_use";
               content := [ToolUseBlock "toolu_1" "no_such_tool"
                             [("message", PStr "ping")]] |} boot)).
Proof.
  apply (dispatch_ignores_tool_name Ping.world Ping.url "sk-test" 0 []
           Ping.ask
           {| stop_reason := "tool_use";
              content := [ToolUseBlock "toolu_1" "no_such_tool"
                            [("message", PStr "ping")]] |}
           boot "toolu_1" "ask_david_gpt" "no_such_tool"
           [("message", PStr "ping")]);
    reflexivity.
Defined.

(** ** What the script sends, and where *)

Lemma adds_only_ret (P : event -> Prop) {A : Type} (a : A) :
  adds_only P (ret a).
Proof.
  intros s. exists []. cbn. rewrite app_nil_r. auto.
Qed.

Lemma adds_only_bind (P : event -> Prop) {A B : Type} (m : M A) (k : A -> M B) :
  adds_only P m -> (forall a, adds_only P (k a)) -> adds_only P (bind m k).
Proof.
  intros Hm Hk s. unfold bind.
  destruct (Hm s) as (evs1 & Hlog1 & H1).
  destruct (m s) as [a s1 | e s1 | s1]; cbn [final_state] in *;
    try solve [exists evs1; auto].
  destruct (Hk a s1) as (evs2 & Hlog2 & H2).
  exists (evs1 ++ evs2)%list. rewrite Hlog2, Hlog1, app_assoc.
  split; [reflexivity | apply Forall_app; auto].
Qed.

Lemma process_tool_calls_made_by (world : services) (url key : string)
  (fuel : nat) :
  forall messages response,
    adds_only (made_by url key)
      (process_tool_calls world url key fuel messages response).
Proof.
  induction fuel as [| fuel IH]; intros messages response s;
    cbn [process_tool_calls];
    destruct (stop_reason response =? "tool_use")%string;
    try (exists []; cbn; rewrite app_nil_r; split; [reflexivity | constructor]).
  unfold bind.
  destruct (tool_use_round_cases world url key messages response s)
    as [[_ Hr] | [(id & name & input & _ & _ & Hr)
       | (id & name & input & m & _ & _ & Hr)]].
  - rewrite Hr. exists []. cbn. rewrite app_nil_r. auto.
  - rewrite Hr. exists []. cbn. rewrite app_nil_r. auto.
  - cbv zeta in Hr.
    assert (Hpost : forall res,
               made_by url key
                 (BridgePost url (request_body m (conversation_id s)) res)).
    { intros res. split; [reflexivity | eauto]. }
    destruct Hr as [(e & Hr & _) | (hr & d & _ & _ & _ & Hr)]; rewrite Hr.
    + eexists. split; [reflexivity |]. repeat constructor; eauto.
    + cbn [conversation_id log].
      match goal with
      | |- context [messages_create world ?l ?q] =>
          destruct (messages_create world l q) as [r' | e]
      end.
      * cbn [fst snd].
        match goal with
        | |- context [process_tool_calls world url key fuel ?ms r' ?s2] =>
            destruct (IH ms r' s2) as (evs & Hlog & Hall)
        end.
        rewrite Hlog. cbn [log]. rewrite <- !app_assoc. cbn [app].
        eexists. split; [reflexivity |].
        constructor; [apply Hpost |].
        constructor; [cbn; eauto | exact Hall].
      * cbn [final_state log]. rewrite <- !app_assoc. cbn [app].
        eexists. split; [reflexivity |].
        constructor; [apply Hpost |].
        constructor; [cbn; eauto | constructor].
Qed.

Lemma chat_with_claude_made_by (world : services) (url key : string)
  (fuel : nat) (user_message : string) :
  adds_only (made_by url key) (chat_with_claude world url key fuel user_message).
Proof.
  unfold chat_with_claude. apply adds_only_bind.
  - intros s. unfold create.
    match goal with
    | |- context [messages_create world ?l ?q] =>
        destruct (messages_create world l q)
    end; cbn; eexists; (split; [reflexivity |]);
      repeat constructor; cbn; eauto.
  - intros r. apply process_tool_calls_made_by.
Qed.

Lemma main_made_by (world : services) (url key : string) (fuel : nat) :
  adds_only (made_by url key) (main world url key fuel).
Proof.
  unfold main.
  repeat (apply adds_only_bind; [apply chat_with_claude_made_by | intros _]).
  apply adds_only_ret.
Qed.

(** Every event of a run of the program was made with the address and the
    key the module read from the environment. *)
Lemma program_made_by (environ : string -> option string) (world : services)
  (fuel : nat) :
  forall k, environ "ANTHROPIC_API_KEY" = Some k ->
    Forall
      (made_by
         (getenv_default environ "MCP_BRIDGE_URL"
            "http://localhost:3000/api/mcp-bridge") k)
      (log (final_state (program environ world fuel))).
Proof.
  intros k Hk. unfold program, getenv. rewrite Hk.
  destruct (k =? "")%string; [constructor |].
  match goal with
  | |- context [main world ?u k fuel boot] =>
      destruct (main_made_by world u k fuel boot) as (evs & Hlog & Hall)
  end.
  rewrite Hlog. exact Hall.
Qed.

Lemma program_without_key (environ : string -> option string)
  (world : services) (fuel : nat) :
  environ "ANTHROPIC_API_KEY" = None ->
  log (final_state (program environ world fuel)) = [].
Proof.
  intros Hk. unfold program, getenv. rewrite Hk. reflexivity.
Qed.


(** X2: every bridge request of a run goes to the address in MCP_BRIDGE_URL,
    and to http://localhost:3000/api/mcp-bridge when that variable is unset;
    its body is one of the two request bodies of [call_david_gpt]. *)
Theorem bridge_posts_go_to_configured_url
  (environ : string -> option string) (world : services) (fuel : nat)
  (u : string) (b : pyval) (r : result http_response) :
  In (BridgePost u b r) (log (final_state (program environ world fuel))) ->
  (forall address, environ "MCP_BRIDGE_URL" = Some address -> u = address)
  /\ (environ "MCP_BRIDGE_URL" = None ->
      u = "http://localhost:3000/api/mcp-bridge")
  /\ (exists m cid, b = request_body m cid).
Proof.
  intros Hin.
  destruct (environ "ANTHROPIC_API_KEY") as [k |] eqn:Hk.
  2:{ rewrite (program_without_key environ world fuel Hk) in Hin.
      contradiction. }
  pose proof (program_made_by environ world fuel k Hk) as Hall.
  rewrite Forall_forall in Hall. specialize (Hall _ Hin).
  destruct Hall as [Hu Hb]. unfold getenv_default in Hu.
  split; [| split; [| exact Hb]].
  - intros address Ha. rewrite Ha in Hu. exact Hu.
  - intros Ha. rewrite Ha in Hu. exact Hu.
Qed.

(** X3: every chat call of a run carries the key read from the environment,
    the model "claude-3-5-sonnet-20241022", a budget of 2048 tokens, and the
    one declared tool, "ask_david_gpt". *)
Theorem chat_calls_use_fixed_arguments
  (environ : string -> option string) (world : services) (fuel : nat)
  (req : chat_request) (res : result chat_response) :
  In (ChatCall req res) (log (final_state (program environ world fuel))) ->
  environ "ANTHROPIC_API_KEY" = Some (api_key req)
  /\ model req = "claude-3-5-sonnet-20241022"
  /\ max_tokens req = 2048
  /\ req_tools req = tools
  /\ map tool_name (req_tools req) = ["ask_david_gpt"].
Proof.
  intros Hin.
  destruct (environ "ANTHROPIC_API_KEY") as [k |] eqn:Hk.
  2:{ rewrite (program_without_key environ world fuel Hk) in Hin.
      contradiction. }
  pose proof (program_made_by environ world fuel k Hk) as Hall.
  rewrite Forall_forall in Hall. specialize (Hall _ Hin).
  destruct Hall as [messages ->]. repeat split.
Qed.

(** ** Malformed answers *)

(** X4: a response with stop reason "tool_use" that has no tool-use block
    ends the loop with StopIteration, and one whose first tool-use block has
    no "message" entry ends it with KeyError; in both cases nothing has been
    called and the stored identifier is untouched. *)
Theorem malformed_tool_request_raises_before_any_call
  (world : services) (url key : string) (fuel : nat)
  (messages : list turn) (response : chat_response) (s : state) :
  stop_reason response = "tool_use" ->
  (first_tool_use (content response) = None ->
   process_tool_calls world url key (S fuel) messages response s
   = Raised StopIteration s)
  /\
  (forall id name input,
      first_tool_use (content response) = Some (id, name, input) ->
      dict_lookup input "message" = None ->
      process_tool_calls world url key (S fuel) messages response s
      = Raised (KeyError "message") s).
Proof.
  intros Hstop. apply String.eqb_eq in Hstop.
  split.
  - intros Hf. cbn [process_tool_calls]. rewrite Hstop.
    unfold bind, tool_use_round, bind. rewrite Hf. reflexivity.
  - intros id name input Hf Hm. cbn [process_tool_calls]. rewrite Hstop.
    unfold bind.
    pose proof (tool_use_round_state world url key messages response s
                  id name input Hf) as Hr.
    rewrite Hm in Hr. rewrite Hr. reflexivity.
Qed.

(** X5: when the bridge answers with a JSON object that has no "response"
    entry (or a null one), and a status that is not an error status, the loop
    raises TypeError while building the preview.  The bridge call has been
    made and is the last event: no chat call follows.  The identifier of that
    answer, if truthy, is already stored. *)
Theorem answer_without_response_raises_after_storing
  (world : services) (url key : string) (fuel : nat)
  (messages : list turn) (response : chat_response) (s : state)
  (id name : string) (input : dict) (m : pyval)
  (hr : http_response) (d : dict) :
  stop_reason response = "tool_use" ->
  first_tool_use (content response) = Some (id, name, input) ->
  dict_lookup input "message" = Some m ->
  requests_post world (log s) url (request_body m (conversation_id s)) = Ok hr ->
  ~ (400 <= status_code hr < 600) ->
  json_body hr = Some (PDict d) ->
  dict_get d "response" PNone = PNone ->
  process_tool_calls world url key (S fuel) messages response s
  = Raised TypeError
      {| conversation_id :=
           if truthy (dict_get d "conversation_id" PNone)
           then dict_get d "conversation_id" PNone
           else conversation_id s;
         log := (log s ++ [BridgePost url (request_body m (conversation_id s))
                             (Ok hr)])%list |}.
Proof.
  intros Hstop Hf Hm Hpost Hstatus Hjs Hresp.
  apply String.eqb_eq in Hstop.
  assert (Hok : is_error_status hr = false).
  { destruct (is_error_status hr) eqn:E; [| reflexivity].
    apply is_error_status_iff in E. contradiction. }
  cbn [process_tool_calls]. rewrite Hstop.
  unfold bind, tool_use_round, bind. rewrite Hf. cbn [ret].
  unfold subscript. rewrite Hm. cbn [ret get_conversation_id].
  unfold call_david_gpt, bind, post. rewrite Hpost. cbn [lift ret].
  unfold raise_for_status. rewrite Hok. cbn [ret].
  unfold response_json. rewrite Hjs. cbn [ret as_dict].
  cbn [r_conversation_id r_response r_citations]. rewrite Hresp.
  destruct (truthy (dict_get d "conversation_id" PNone)); reflexivity.
Qed.

(** X6: how [call_david_gpt] fails.  An exception raised inside
    [requests.post] comes out unchanged; a body that is not JSON gives
    JSONDecodeError; a JSON body that is not an object gives AttributeError.
    In each case the one post is in the log and the stored identifier is what
    it was.  The call returns exactly when the bridge answered with a status
    outside 400..599 and a JSON object. *)
Theorem call_david_gpt_failures
  (world : services) (url : string) (message cid : pyval) (s : state) :
  let res := requests_post world (log s) url (request_body message cid) in
  let s1 := {| conversation_id := conversation_id s;
               log := (log s ++ [BridgePost url (request_body message cid) res])%list |} in
  (forall e, res = Err e ->
     call_david_gpt world url message cid s = Raised e s1)
  /\ (forall hr, res = Ok hr -> ~ (400 <= status_code hr < 600) ->
        json_body hr = None ->
        call_david_gpt world url message cid s = Raised JSONDecodeError s1)
  /\ (forall hr v, res = Ok hr -> ~ (400 <= status_code hr < 600) ->
        json_body hr = Some v -> (forall d, v <> PDict d) ->
        call_david_gpt world url message cid s = Raised AttributeError s1)
  /\ ((exists br s', call_david_gpt world url message cid s = Returned br s')
      <-> exists hr d, res = Ok hr /\ ~ (400 <= status_code hr < 600) /\
                       json_body hr = Some (PDict d)).
Proof.
  cbv zeta.
  assert (Hnot : forall hr, ~ (400 <= status_code hr < 600) ->
                            is_error_status hr = false).
  { intros hr H. destruct (is_error_status hr) eqn:E; [| reflexivity].
    apply is_error_status_iff in E. contradiction. }
  split; [| split; [| split]].
  - intros e He. unfold call_david_gpt, bind, post. rewrite He. reflexivity.
  - intros hr Hres Hst Hjs. unfold call_david_gpt, bind, post.
    rewrite Hres. cbn [lift ret]. unfold raise_for_status.
    rewrite (Hnot hr Hst). cbn [ret]. unfold response_json. rewrite Hjs.
    reflexivity.
  - intros hr v Hres Hst Hjs Hv. unfold call_david_gpt, bind, post.
    rewrite Hres. cbn [lift ret]. unfold raise_for_status.
    rewrite (Hnot hr Hst). cbn [ret]. unfold response_json. rewrite Hjs.
    cbn [ret]. destruct v; try reflexivity.
    exfalso. apply (Hv d). reflexivity.
  - split.
    + intros (br & s' & Hret).
      destruct (call_david_gpt_cases world url message cid s)
        as [(e & Hc & _) | (hr & d & Hres & Hok & Hjs & _ & _)];
        cbv zeta in *.
      * rewrite Hc in Hret. discriminate.
      * exists hr, d. split; [exact Hres | split; [| exact Hjs]].
        intros Hst. apply is_error_status_iff in Hst. congruence.
    + intros (hr & d & Hres & Hst & Hjs).
      unfold call_david_gpt, bind, post. rewrite Hres. cbn [lift ret].
      unfold raise_for_status. rewrite (Hnot hr Hst). cbn [ret].
      unfold response_json. rewrite Hjs. cbn [ret as_dict]. eauto.
Qed.

(** ** Exceptions raised by the services *)

Lemma tool_use_round_post_raises (world : services) (url key : string)
  (messages : list turn) (response : chat_response) (s : state)
  (id name : string) (input : dict) (m : pyval) (e : exn) :
  first_tool_use (content response) = Some (id, name, input) ->
  dict_lookup input "message" = Some m ->
  requests_post world (log s) url (request_body m (conversation_id s)) = Err e ->
  exists s', tool_use_round world url key messages response s = Raised e s'.
Proof.
  intros Hf Hm Hpost. unfold tool_use_round, bind. rewrite Hf. cbn [ret].
  unfold subscript. rewrite Hm. cbn [ret get_conversation_id].
  unfold call_david_gpt, bind, post. rewrite Hpost. cbn [lift raise]. eauto.
Qed.

(** In the log of the loop, a call that a service answered with an exception
    is the last event, and the loop ends by raising that exception. *)
Lemma process_tool_calls_service_error (world : services) (url key : string)
  (fuel : nat) :
  forall (messages : list turn) (response : chat_response) (s : state)
         (before after : list event) (ev : event) (e : exn),
    log (final_state (process_tool_calls world url key fuel messages response s))
      = (log s ++ before ++ ev :: after)%list ->
    event_error ev = Some e ->
    after = [] /\
    process_tool_calls world url key fuel messages response s
      = Raised e
          (final_state (process_tool_calls world url key fuel messages response s)).
Proof.
  induction fuel as [| fuel IH];
    intros messages response s before after ev e Hlog Herr;
    cbn [process_tool_calls] in *;
    destruct (stop_reason response =? "tool_use")%string;
    try (cbn in Hlog; apply app_eq_self_inv in Hlog;
         destruct before; discriminate).
  unfold bind in *.
  destruct (tool_use_round_cases world url key messages response s)
    as [[_ Hr] | [(id & name & input & _ & _ & Hr)
       | (id & name & input & m & Hf & Hm & Hr)]].
  - rewrite Hr in Hlog. cbn in Hlog. apply app_eq_self_inv in Hlog.
    destruct before; discriminate.
  - rewrite Hr in Hlog. cbn in Hlog. apply app_eq_self_inv in Hlog.
    destruct before; discriminate.
  - cbv zeta in Hr.
    destruct Hr as [(e0 & Hr & _) | (hr0 & d & Hres & _ & _ & Hr)].
    + rewrite Hr in *. cbn [final_state log] in Hlog.
      apply app_inv_head in Hlog.
      destruct before as [| x [| y before]]; try discriminate.
      injection Hlog as Hev Hafter. subst ev. cbn in Herr.
      destruct (requests_post world (log s) url
                  (request_body m (conversation_id s))) as [hr | e1] eqn:Hpost;
        [discriminate |].
      injection Herr as ->.
      destruct (tool_use_round_post_raises world url key messages response s
                  id name input m e Hf Hm Hpost) as (s' & Hr').
      rewrite Hr in Hr'. injection Hr' as -> _. auto.
    + rewrite Hr in *. cbn [conversation_id log] in *. rewrite Hres in *.
      match type of Hlog with
      | context [messages_create world ?l ?q] =>
          destruct (messages_create world l q) as [r' | e1] eqn:Hc
      end.
      * cbn [fst snd] in *.
        match type of Hlog with
        | context [process_tool_calls world url key fuel ?ms r' ?s2] =>
            destruct (process_tool_calls_log world url key fuel ms r' s2)
              as (evs & Hlog2 & _);
            specialize (IH ms r' s2)
        end.
        cbn [log] in *. rewrite Hlog2 in Hlog. rewrite <- !app_assoc in Hlog.
        apply app_inv_head in Hlog. cbn [app] in Hlog.
        destruct before as [| x [| y before]]; cbn [app] in Hlog.
        -- injection Hlog as Hev _. subst ev. discriminate.
        -- injection Hlog as _ Hev _. subst ev. discriminate.
        -- injection Hlog as _ _ Hevs.
           apply (IH before after ev e); [| exact Herr].
           rewrite Hlog2, Hevs. reflexivity.
      * cbn [final_state log] in Hlog. rewrite <- !app_assoc in Hlog.
        apply app_inv_head in Hlog. cbn [app] in Hlog.
        destruct before as [| x [| y before]]; cbn [app] in Hlog.
        -- injection Hlog as Hev _. subst ev. discriminate.
        -- injection Hlog as _ Hev Hafter. subst ev.
           injection Herr as ->. auto.
        -- injection Hlog as _ _ Hevs. destruct before; discriminate.
Qed.

(** X7: an exception raised inside either service (by [requests.post] or by
    [client.messages.create]) comes out of [chat_with_claude] unchanged, and
    the failed call is the last event of the exchange: nothing is retried and
    nothing else is called. *)
Theorem service_exception_ends_exchange
  (world : services) (url key : string) (fuel : nat)
  (user_message : string) (s : state)
  (before after : list event) (ev : event) (e : exn) :
  log (final_state (chat_with_claude world url key fuel user_message s))
    = (log s ++ before ++ ev :: after)%list ->
  event_error ev = Some e ->
  after = []
  /\ exists s',
       chat_with_claude world url key fuel user_message s = Raised e s' /\
       log s' = (log s ++ before ++ [ev])%list.
Proof.
  intros Hlog Herr.
  assert (Hmain : after = [] /\
            chat_with_claude world url key fuel user_message s
              = Raised e
                  (final_state (chat_with_claude world url key fuel user_message s))).
  { revert Hlog. unfold chat_with_claude, bind, create.
    match goal with
    | |- context [messages_create world ?l ?q] =>
        destruct (messages_create world l q) as [r | e1] eqn:Hc
    end; cbn [lift ret raise final_state log]; intros Hlog.
    - match type of Hlog with
      | context [process_tool_calls world url key fuel ?ms r ?s1] =>
          destruct (process_tool_calls_log world url key fuel ms r s1)
            as (evs & Hlog1 & _);
          pose proof (process_tool_calls_service_error world url key fuel ms r s1)
            as Hloop
      end.
      cbn [log] in *. rewrite Hlog1 in Hlog. rewrite <- app_assoc in Hlog.
      apply app_inv_head in Hlog. cbn [app] in Hlog.
      destruct before as [| x before]; cbn [app] in Hlog.
      + injection Hlog as Hev _. subst ev. discriminate.
      + injection Hlog as _ Hevs.
        apply (Hloop before after ev e); [| exact Herr].
        rewrite Hlog1, Hevs. reflexivity.
    - apply app_inv_head in Hlog.
      destruct before as [| x [| y before]]; try discriminate.
      injection Hlog as Hev Hafter. subst ev. injection Herr as ->. auto. }
  destruct Hmain as [Hafter Hout]. split; [exact Hafter |].
  eexists. split; [exact Hout |]. rewrite Hlog, Hafter. reflexivity.
Qed.

(** ** The stored identifier over a run *)

Lemma next_id_truthy (cid : pyval) (r : result http_response) :
  truthy cid = true -> truthy (next_id cid r) = true.
Proof.
  intros Hc. unfold next_id.
  destruct (returned_identifier r) as [v |]; [| exact Hc].
  destruct (truthy v) eqn:Hv; assumption.
Qed.

Lemma stored_after_truthy (cid : pyval) (evs : list event) :
  truthy cid = true -> truthy (stored_after cid evs) = true.
Proof.
  revert cid. induction evs as [| [req res | u b res] evs IH]; intros cid Hc;
    cbn; auto using next_id_truthy.
Qed.

Lemma stored_after_no_update (cid : pyval) (evs : list event) :
  (forall u b r v, In (BridgePost u b r) evs ->
                   returned_identifier r = Some v -> truthy v = false) ->
  stored_after cid evs = cid.
Proof.
  induction evs as [| [req res | u b res] evs IH]; intros Hno; cbn.
  - reflexivity.
  - apply IH. intros u b r v Hin. apply (Hno u b r v). right. exact Hin.
  - assert (Hn : next_id cid res = cid).
    { unfold next_id. destruct (returned_identifier res) as [v |] eqn:Hv;
        [| reflexivity].
      rewrite (Hno u b res v (or_introl eq_refl) Hv). reflexivity. }
    rewrite Hn. apply IH. intros u' b' r v Hin. apply (Hno u' b' r v).
    right. exact Hin.
Qed.

Lemma program_final_identifier (environ : string -> option string)
  (world : services) (fuel : nat) :
  conversation_id (final_state (program environ world fuel))
  = stored_after PNone (log (final_state (program environ world fuel))).
Proof.
  unfold program.
  destruct (getenv environ "ANTHROPIC_API_KEY") as [k |]; [| reflexivity].
  destruct (k =? "")%string; [reflexivity |].
  match goal with
  | |- context [main world ?u k fuel boot] =>
      destruct (main_keeps_session world u k fuel boot) as (evs & Hlog & _ & Hc)
  end.
  rewrite Hlog, Hc. reflexivity.
Qed.

(** X8: once a bridge call of a run has returned a truthy conversation
    identifier, every later bridge request of that run, in the same exchange
    or a later one, is a "reply_to_conversation" request carrying a truthy
    identifier: the script never starts a second conversation. *)
Theorem never_a_second_new_conversation
  (environ : string -> option string) (world : services) (fuel : nat)
  (before between after : list event)
  (u1 u2 : string) (b1 b2 : pyval) (r1 r2 : result http_response) (v : pyval) :
  log (final_state (program environ world fuel))
    = (before ++ BridgePost u1 b1 r1 :: between ++ BridgePost u2 b2 r2 :: after)%list ->
  returned_identifier r1 = Some v ->
  truthy v = true ->
  exists c m,
    truthy c = true /\
    b2 = PDict [ ("action", PStr "reply_to_conversation");
                 ("conversation_id", c);
                 ("message", m) ].
Proof.
  intros Hlog Hv Ht.
  pose proof (program_session_ok environ world fuel) as Hs.
  rewrite Hlog in Hs. apply session_ok_split in Hs. destruct Hs as [_ Hs].
  cbn [session_ok] in Hs. destruct Hs as [_ Hs].
  apply session_ok_split in Hs. destruct Hs as [_ Hs].
  cbn [session_ok] in Hs. destruct Hs as [[m Hb2] _].
  assert (Hnext : truthy (next_id (stored_after PNone before) r1) = true).
  { unfold next_id. rewrite Hv, Ht. exact Ht. }
  pose proof (stored_after_truthy _ between Hnext) as Hc.
  eexists. exists m. split; [exact Hc |].
  rewrite Hb2. unfold request_body. rewrite Hc. reflexivity.
Qed.

(** X12: the identifier stored when the program ends is the one returned by
    the last bridge call that returned a truthy identifier. *)
Theorem final_identifier_is_last_returned
  (environ : string -> option string) (world : services) (fuel : nat)
  (before after : list event)
  (u : string) (b : pyval) (r : result http_response) (v : pyval) :
  log (final_state (program environ world fuel))
    = (before ++ BridgePost u b r :: after)%list ->
  returned_identifier r = Some v ->
  truthy v = true ->
  (forall u' b' r' v', In (BridgePost u' b' r') after ->
                       returned_identifier r' = Some v' -> truthy v' = false) ->
  conversation_id (final_state (program environ world fuel)) = v.
Proof.
  intros Hlog Hv Ht Hafter.
  rewrite program_final_identifier, Hlog, stored_after_app.
  cbn [stored_after]. rewrite (stored_after_no_update _ after Hafter).
  unfold next_id. rewrite Hv, Ht. reflexivity.
Qed.

(** ** Fuel *)




(** ** What an exchange returns *)

Lemma process_tool_calls_returns (world : services) (url key : string)
  (fuel : nat) :
  forall (messages : list turn) (response : chat_response) (s : state)
         (l0 : list event) (req0 : chat_request)
         (v : option string) (s' : state),
    log s = (l0 ++ [ChatCall req0 (Ok response)])%list ->
    process_tool_calls world url key fuel messages response s = Returned v s' ->
    exists before req r,
      log s' = (l0 ++ before ++ [ChatCall req (Ok r)])%list /\
      stop_reason r <> "tool_use" /\
      v = first_text (content r).
Proof.
  induction fuel as [| fuel IH];
    intros messages response s l0 req0 v s' Hlog Hret;
    cbn [process_tool_calls] in Hret;
    destruct (stop_reason response =? "tool_use")%string eqn:Hstop;
    try discriminate;
    try (injection Hret as <- <-; exists [], req0, response;
         apply String.eqb_neq in Hstop; auto).
  unfold bind in Hret.
  destruct (tool_use_round_cases world url key messages response s)
    as [[_ Hr] | [(id & name & input & _ & _ & Hr)
       | (id & name & input & m & _ & _ & Hr)]];
    try (rewrite Hr in Hret; discriminate).
  cbv zeta in Hr.
  destruct Hr as [(e & Hr & _) | (hr & d & _ & _ & _ & Hr)];
    rewrite Hr in Hret; [discriminate |].
  cbn [conversation_id log] in Hret.
  match type of Hret with
  | context [messages_create world ?l ?q] =>
      destruct (messages_create world l q) as [r' | e]; [| discriminate]
  end.
  cbn [fst snd] in Hret.
  match type of Hret with
  | process_tool_calls world url key fuel ?ms r'
      {| conversation_id := ?c; log := (?l ++ [ChatCall ?q (Ok r')])%list |} = _ =>
      destruct (IH ms r' {| conversation_id := c;
                            log := (l ++ [ChatCall q (Ok r')])%list |}
                  l q v s' eq_refl Hret)
        as (before & req & r & Hlog' & Hterm & Hv)
  end.
  rewrite Hlog in Hlog'. rewrite <- !app_assoc in Hlog'.
  eexists (_ :: _ :: before), req, r.
  split; [rewrite Hlog'; cbn [app]; reflexivity | auto].
Qed.

(** X10: whenever [chat_with_claude] returns, after any number of rounds,
    the last event of the log is a chat call whose response has a stop reason
    other than "tool_use", and the value returned is the text of the first
    text block of that response ([None] if it has none). *)
Theorem returned_text_is_from_last_response
  (world : services) (url key : string) (fuel : nat)
  (user_message : string) (s s' : state) (v : option string) :
  chat_with_claude world url key fuel user_message s = Returned v s' ->
  exists before req r,
    log s' = (log s ++ before ++ [ChatCall req (Ok r)])%list /\
    stop_reason r <> "tool_use" /\
    v = first_text (content r).
Proof.
  unfold chat_with_claude, bind, create.
  match goal with
  | |- context [messages_create world ?l ?q] =>
      destruct (messages_create world l q) as [r0 | e] eqn:Hc
  end; cbn [lift ret raise]; [| discriminate].
  intros Hret.
  match type of Hret with
  | process_tool_calls world url key fuel ?ms r0
      {| conversation_id := ?c; log := (?l ++ [ChatCall ?q (Ok r0)])%list |} = _ =>
      exact (process_tool_calls_returns world url key fuel ms r0
               {| conversation_id := c; log := (l ++ [ChatCall q (Ok r0)])%list |}
               l q v s' eq_refl Hret)
  end.
Qed.

(** ** What the chat service is told about the bridge's answer *)

Lemma rounds_ok_tool_result (n : nat) :
  forall (before after : list event) (prev : list turn) (r : chat_response)
         (u : string) (b : pyval) (res : result http_response)
         (req : chat_request) (cres : result chat_response),
    (List.length before <= n)%nat ->
    rounds_ok prev r (before ++ BridgePost u b res :: ChatCall req cres :: after) ->
    exists hr d id ms a,
      res = Ok hr /\ json_body hr = Some (PDict d) /\
      req_messages req
        = (ms ++ [a; tool_result_turn id (dict_get d "response" PNone)])%list.
Proof.
  induction n as [| n IH];
    intros before after prev r u b res req cres Hlen Hr;
    destruct before as [| x [| y before]]; cbn in Hlen; try lia.
  - cbn in Hr. destruct Hr as [(id & name & input & hr & d & _ & ? & ? & ?) _].
    exists hr, d, id, prev, (assistant_turn r). auto.
  - cbn in Hr. destruct Hr as [(id & name & input & hr & d & _ & ? & ? & ?) _].
    exists hr, d, id, prev, (assistant_turn r). auto.
  - destruct x; cbn in Hr; contradiction.
  - destruct x as [q c | u' b' res']; cbn in Hr; [contradiction |].
    destruct y as [q c | u'' b'' res'']; [| contradiction].
    destruct Hr as [_ Hr]. destruct c as [r' | e].
    + apply (IH before after (req_messages q) r' u b res req cres);
        [lia | exact Hr].
    + destruct before; discriminate.
Qed.

(** X11: the tool result handed to the chat service is the bridge's answer:
    whenever a chat call directly follows a bridge call in an exchange, the
    bridge answered with a JSON object, and the last turn of the message list
    sent is the tool result whose content is the "response" entry of that
    object. *)
Theorem tool_result_is_bridge_response
  (world : services) (url key : string) (fuel : nat)
  (user_message : string) (s : state)
  (before after : list event) (u : string) (b : pyval)
  (res : result http_response) (req : chat_request)
  (cres : result chat_response) :
  log (final_state (chat_with_claude world url key fuel user_message s))
    = (log s ++ before ++ BridgePost u b res :: ChatCall req cres :: after)%list ->
  exists hr d id ms a,
    res = Ok hr /\ json_body hr = Some (PDict d) /\
    req_messages req
      = (ms ++ [a; {| role := "user";
                      turn_body :=
                        ContentToolResult id (dict_get d "response" PNone) |}])%list.
Proof.
  intros Hlog.
  destruct (chat_with_claude_log world url key fuel user_message s)
    as (res0 & evs & Hlog0 & _ & _ & Hrounds).
  cbv zeta in *. rewrite Hlog0 in Hlog. apply app_inv_head in Hlog.
  destruct before as [| x before]; cbn [app] in Hlog; [discriminate |].
  injection Hlog as _ Hevs. subst evs.
  destruct res0 as [r0 | e].
  - apply (rounds_ok_tool_result (List.length before) before after _ r0
             u b res req cres (le_n _) Hrounds).
  - destruct before; discriminate.
Qed.

(** ** The further theorems at concrete inputs *)

Lemma bridge_posts_go_to_configured_url_witness :
  (forall address, Ping.environ "MCP_BRIDGE_URL" = Some address ->
                   Ping.url = address)
  /\ (Ping.environ "MCP_BRIDGE_URL" = None ->
      Ping.url = "http://localhost:3000/api/mcp-bridge")
  /\ (exists m cid, request_body (PStr "ping") PNone = request_body m cid).
Proof.
  apply (bridge_posts_go_to_configured_url Ping.environ Ping.world 5
           Ping.url (request_body (PStr "ping") PNone) (Ok Ping.pong)).
  vm_compute. right. left. reflexivity.
Defined.

Lemma chat_calls_use_fixed_arguments_witness :
  Ping.environ "ANTHROPIC_API_KEY" = Some "sk-test"
  /\ model (create_request "sk-test"
              [ {| role := "user";
                   turn_body := ContentText
                     "What is Leia technology and how does it work?" |} ])
     = "claude-3-5-sonnet-20241022".
Proof.
  pose proof
    (chat_calls_use_fixed_arguments Ping.environ Ping.world 5
       (create_request "sk-test"
          [ {| role := "user";
               turn_body := ContentText
                 "What is Leia technology and how does it work?" |} ])
       (Ok Ping.ask)) as H.
  assert (Hin : In (Ping.first_call "What is Leia technology and how does it work?")
                   (log (final_state (program Ping.environ Ping.world 5)))).
  { vm_compute. left. reflexivity. }
  destruct (H Hin) as (Hkey & Hmodel & _). split; assumption.
Defined.

Lemma malformed_tool_request_raises_before_any_call_witness :
  (first_tool_use [TextBlock "hm"] = None ->
   process_tool_calls Ping.world Ping.url "sk-test" 1 []
     {| stop_reason := "tool_use"; content := [TextBlock "hm"] |} boot
   = Raised StopIteration boot)
  /\
  (forall id name input,
      first_tool_use [TextBlock "hm"] = Some (id, name, input) ->
      dict_lookup input "message" = None ->
      process_tool_calls Ping.world Ping.url "sk-test" 1 []
        {| stop_reason := "tool_use"; content := [TextBlock "hm"] |} boot
      = Raised (KeyError "message") boot).
Proof.
  apply (malformed_tool_request_raises_before_any_call Ping.world Ping.url
           "sk-test" 0 []
           {| stop_reason := "tool_use"; content := [TextBlock "hm"] |} boot).
  reflexivity.
Defined.

Lemma answer_without_response_raises_after_storing_witness :
  process_tool_calls NoText.world Ping.url "sk-test" 1 [] Ping.ask boot
  = Raised TypeError
      {| conversation_id := PStr "c9";
         log := [ BridgePost Ping.url (request_body (PStr "ping") PNone)
                    (Ok NoText.reply) ] |}.
Proof.
  apply (answer_without_response_raises_after_storing NoText.world Ping.url
           "sk-test" 0 [] Ping.ask boot "toolu_1" "ask_david_gpt"
           [("message", PStr "ping")] (PStr "ping") NoText.reply
           [("conversation_id", PStr "c9")]).
  - reflexivity.
  - reflexivity.
  - reflexivity.
  - reflexivity.
  - cbn. lia.
  - reflexivity.
  - reflexivity.
Defined.

Lemma service_exception_ends_exchange_witness :
  @nil event = []
  /\ exists s',
       chat_with_claude Outage.world Ping.url "sk-test" 5 "ping" boot
         = Raised (ExternalError "overloaded") s' /\
       log s'
       = (log boot ++ [] ++
          [ChatCall
             (create_request "sk-test"
                [ {| role := "user"; turn_body := ContentText "ping" |} ])
             (Err (ExternalError "overloaded"))])%list.
Proof.
  apply (service_exception_ends_exchange Outage.world Ping.url "sk-test" 5
           "ping" boot [] []
           (ChatCall
              (create_request "sk-test"
                 [ {| role := "user"; turn_body := ContentText "ping" |} ])
              (Err (ExternalError "overloaded")))
           (ExternalError "overloaded")).
  - reflexivity.
  - reflexivity.
Defined.

Lemma never_a_second_new_conversation_witness :
  exists c m,
    truthy c = true /\
    request_body (PStr "ping") (PStr "c1")
    = PDict [ ("action", PStr "reply_to_conversation");
              ("conversation_id", c);
              ("message", m) ].
Proof.
  apply (never_a_second_new_conversation Ping.environ Ping.world 5
           (firstn 1 Ping.program_log)
           (firstn 5 (skipn 2 Ping.program_log))
           (skipn 8 Ping.program_log)
           Ping.url Ping.url
           (request_body (PStr "ping") PNone)
           (request_body (PStr "ping") (PStr "c1"))
           (Ok Ping.pong) (Ok Ping.pong) (PStr "c1")).
  - reflexivity.
  - reflexivity.
  - reflexivity.
Defined.

Lemma final_identifier_is_last_returned_witness :
  conversation_id (final_state (program Ping.environ Ping.world 5)) = PStr "c1".
Proof.
  apply (final_identifier_is_last_returned Ping.environ Ping.world 5
           (firstn 7 Ping.program_log) (skipn 8 Ping.program_log)
           Ping.url (request_body (PStr "ping") (PStr "c1")) (Ok Ping.pong)
           (PStr "c1")).
  - reflexivity.
  - reflexivity.
  - reflexivity.
  - intros u' b' r' v' Hin. vm_compute in Hin.
    destruct Hin as [Hin | []]. discriminate Hin.
Defined.


Lemma returned_text_is_from_last_response_witness :
  exists before req r,
    log (final_state Ping.run)
      = (log boot ++ before ++ [ChatCall req (Ok r)])%list /\
    stop_reason r <> "tool_use" /\
    Some "pong received" = first_text (content r).
Proof.
  apply (returned_text_is_from_last_response Ping.world Ping.url "sk-test" 5
           "ping" boot (final_state Ping.run) (Some "pong received")).
  reflexivity.
Defined.

Lemma tool_result_is_bridge_response_witness :
  exists hr d id ms a,
    Ok Ping.pong = Ok hr /\ json_body hr = Some (PDict d) /\
    [ {| role := "user"; turn_body := ContentText "ping" |};
      assistant_turn Ping.ask;
      tool_result_turn "toolu_1" (PStr "pong") ]
    = (ms ++ [a; {| role := "user";
                    turn_body :=
                      ContentToolResult id (dict_get d "response" PNone) |}])%list.
Proof.
  apply (tool_result_is_bridge_response Ping.world Ping.url "sk-test" 5
           "ping" boot [Ping.first_call "ping"] [] Ping.url
           (request_body (PStr "ping") PNone) (Ok Ping.pong)
           (create_request "sk-test"
              [ {| role := "user"; turn_body := ContentText "ping" |};
                assistant_turn Ping.ask;
                tool_result_turn "toolu_1" (PStr "pong") ])
           (Ok Ping.answer)).
  reflexivity.
Defined.

(** ** Alternation *)

Lemma rounds_ok_alternate (n : nat) :
  forall (before after : list event) (prev : list turn) (r : chat_response)
         (x y : event),
    (List.length before <= n)%nat ->
    rounds_ok prev r (before ++ x :: y :: after) ->
    is_chat_call x = false /\ is_chat_call y = true
    \/ is_chat_call x = true /\ is_chat_call y = false.
Proof.
  induction n as [| n IH]; intros before after prev r x y Hlen Hr;
    destruct before as [| z [| w before]]; cbn in Hlen; try lia;
    cbn [app] in Hr.
  - destruct x; [contradiction |]. destruct y; [| contradiction]. auto.
  - destruct x; [contradiction |]. destruct y; [| contradiction]. auto.
  - destruct z as [q c | u b res]; [contradiction |].
    destruct x as [q c | u' b' res']; [| contradiction].
    cbn [rounds_ok] in Hr. destruct Hr as [_ Hr].
    destruct c as [r' | e]; [| discriminate].
    destruct y; [contradiction | auto].
  - destruct z as [q c | u b res]; [contradiction |].
    destruct w as [q c | u' b' res']; [| contradiction].
    cbn [rounds_ok] in Hr. destruct Hr as [_ Hr].
    destruct c as [r' | e].
    + apply (IH before after (req_messages q) r' x y); [lia | exact Hr].
    + destruct before; discriminate.
Qed.

(** X13: within an exchange chat calls and bridge calls strictly alternate:
    of any two consecutive events the exchange adds to the log, one is a chat
    call and the other a bridge call.  The loop never calls the bridge twice
    for one response, and never calls the chat service twice without a
    bridge call in between. *)
Theorem calls_alternate
  (world : services) (url key : string) (fuel : nat)
  (user_message : string) (s : state)
  (before after : list event) (x y : event) :
  log (final_state (chat_with_claude world url key fuel user_message s))
    = (log s ++ before ++ x :: y :: after)%list ->
  is_chat_call x = negb (is_chat_call y).
Proof.
  intros Hlog.
  destruct (chat_with_claude_log world url key fuel user_message s)
    as (res0 & evs & Hlog0 & _ & _ & Hrounds).
  cbv zeta in *. rewrite Hlog0 in Hlog. apply app_inv_head in Hlog.
  destruct res0 as [r0 | e].
  2:{ subst evs. destruct before as [| z [| w before]]; discriminate. }
  destruct before as [| z before]; cbn [app] in Hlog.
  - injection Hlog as <- Hevs. subst evs. cbn [rounds_ok] in Hrounds.
    destruct y; [contradiction | reflexivity].
  - injection Hlog as _ Hevs. subst evs.
    destruct (rounds_ok_alternate (List.length before) before after _ r0 x y
                (le_n _) Hrounds) as [[-> ->] | [-> ->]]; reflexivity.
Qed.

Lemma calls_alternate_witness :
  is_chat_call (Ping.first_call "ping")
  = negb (is_chat_call
            (BridgePost Ping.url (request_body (PStr "ping") PNone)
               (Ok Ping.pong))).
Proof.
  apply (calls_alternate Ping.world Ping.url "sk-test" 5 "ping" boot
           [] [ChatCall
                 (create_request "sk-test"
                    [ {| role := "user"; turn_body := ContentText "ping" |};
                      assistant_turn Ping.ask;
                      tool_result_turn "toolu_1" (PStr "pong") ])
                 (Ok Ping.answer)]).
  reflexivity.
Defined.
